(** * benchserve: the benchmark server and its two front ends

    A shallow embedding of [server.go] (the line-oriented server reading
    commands from standard input) and of the JSON-RPC variant of the same
    package, followed by the properties of the execution coordinator, the
    registry and the command handlers.

    The Go standard library functions the package calls ([strconv.Atoi],
    [strconv.ParseBool], [runtime.GOMAXPROCS], the timer methods of
    [testing.B]) are modelled in their own modules, after their Go
    definitions. *)

From stdpp Require Import strings gmap list.
From Stdlib Require Import ZArith Lia Ascii String DecimalString.
From Stdlib Require DecimalPos.

Local Open Scope string_scope.
Local Open Scope list_scope.
Local Open Scope Z_scope.

(** ** Machine integers *)

(** Go's [int], [int64] and [time.Duration] are 64-bit signed, [uint64] is
    64-bit unsigned; both wrap around. *)
Definition wrap_u64 (z : Z) : Z := z mod 2 ^ 64.
Definition wrap_i64 (z : Z) : Z := (z + 2 ^ 63) mod 2 ^ 64 - 2 ^ 63.

Definition LF : string := String "010"%char "".
Definition TAB : string := String "009"%char "".

(** ** Package strconv *)

Module strconv.

Inductive errKind := ErrSyntax | ErrRange.

(** [strconv.NumError]: the failing function, the input and the reason. *)
Record NumError := { Func : string; Num : string; Err : errKind }.

Definition syntaxError (fn str : string) : NumError :=
  {| Func := fn; Num := str; Err := ErrSyntax |}.
Definition rangeError (fn str : string) : NumError :=
  {| Func := fn; Num := str; Err := ErrRange |}.

Definition digit (c : ascii) : option Z :=
  let n := Z.of_nat (nat_of_ascii c) in
  if (48 <=? n) && (n <=? 57) then Some (n - 48) else None.

Definition maxUint64 : Z := 2 ^ 64 - 1.

(** The digit loop of [ParseUint] for base 10 and 64 bits: a character
    that is no digit is a syntax error, an overflow is a range error, and
    whichever comes first in the string is reported. *)
Fixpoint parseDigits (s : string) (n : Z) : Z * option errKind :=
  match s with
  | EmptyString => (n, None)
  | String c rest =>
      match digit c with
      | None => (0, Some ErrSyntax)
      | Some d =>
          if maxUint64 / 10 + 1 <=? n then (maxUint64, Some ErrRange)
          else
            let n1 := n * 10 + d in
            if maxUint64 <? n1 then (maxUint64, Some ErrRange)
            else parseDigits rest n1
      end
  end.

Definition ParseUint (s : string) : Z * option errKind :=
  match s with
  | EmptyString => (0, Some ErrSyntax)
  | _ => parseDigits s 0
  end.

(** [ParseInt(s, 10, 0)], with the error attributed to [fn]. *)
Definition ParseInt (fn s : string) : Z * option NumError :=
  match s with
  | EmptyString => (0, Some (syntaxError fn s))
  | String c rest =>
      let neg := Ascii.eqb c "-" in
      let body := if Ascii.eqb c "+" || neg then rest else s in
      let '(un, err) := ParseUint body in
      match err with
      | Some ErrSyntax => (0, Some (syntaxError fn s))
      | _ =>
          let cutoff := 2 ^ 63 in
          if negb neg && (cutoff <=? un) then (cutoff - 1, Some (rangeError fn s))
          else if neg && (cutoff <? un) then (- cutoff, Some (rangeError fn s))
          else (if neg then - un else un, None)
      end
  end.

(** [strconv.Atoi]: an optional sign and decimal digits, as an [int]. *)
Definition Atoi (s : string) : Z * option NumError := ParseInt "Atoi" s.

(** [strconv.ParseBool] accepts exactly twelve spellings. *)
Definition ParseBool (str : string) : bool * option NumError :=
  if bool_decide (str ∈ ["1"; "t"; "T"; "TRUE"; "true"; "True"]) then (true, None)
  else if bool_decide (str ∈ ["0"; "f"; "F"; "FALSE"; "false"; "False"]) then (false, None)
  else (false, Some (syntaxError "ParseBool" str)).

(** The decimal text of an integer, as the verb [%d] prints it. *)
Definition Itoa (z : Z) : string := NilZero.string_of_int (Z.to_int z).

End strconv.

(** ** Package runtime *)

Module runtime.

(** The process-wide state the server touches: the scheduler's
    parallelism degree, the monotonic clock, the allocation counters of
    [MemStats] and the number of collections forced so far. *)
Record State := {
  gomaxprocs : Z;
  now : Z;
  Mallocs : Z;
  TotalAlloc : Z;
  NumForcedGC : Z
}.

(** The largest degree every runtime honours as it is given:
    [_MaxGomaxprocs] of the runtime the package was written against.
    Above it the runtime caps the degree, or keeps [int32(n)] and stops
    the process when that is not positive, depending on the release. *)
Definition MaxGomaxprocs : Z := 256.

(** [runtime.GOMAXPROCS(n)] returns the previous setting and changes it
    only when [n] is at least 1.  The model is that of the runtime for
    [n <= MaxGomaxprocs]; statements about larger degrees are not made
    from it. *)
Definition GOMAXPROCS (n : Z) (st : State) : Z * State :=
  (gomaxprocs st,
   if n <=? 0 then st
   else {| gomaxprocs := n; now := now st; Mallocs := Mallocs st;
           TotalAlloc := TotalAlloc st; NumForcedGC := NumForcedGC st |}).

Definition GC (st : State) : State :=
  {| gomaxprocs := gomaxprocs st; now := now st; Mallocs := Mallocs st;
     TotalAlloc := TotalAlloc st; NumForcedGC := NumForcedGC st + 1 |}.

End runtime.

(** ** Package testing *)

Module testing.

(** [testing.BenchmarkResult]. *)
Record BenchmarkResult := {
  N : Z;
  T : Z;
  Bytes : Z;
  MemAllocs : Z;
  MemBytes : Z
}.

(** The fields of [testing.B] that the timer methods and the server's
    reflection read or write.  [b_N] is the exported field [N]. *)
Record B := {
  b_N : Z;
  timerOn : bool;
  start : Z;
  duration : Z;
  bytes : Z;
  netAllocs : Z;
  netBytes : Z;
  startAllocs : Z;
  startBytes : Z;
  failed : bool;
  showAllocResult : bool;
  parallelism : Z
}.

(** [testing.B{N: n}]: every other field has its zero value. *)
Definition newB (n : Z) : B :=
  {| b_N := n; timerOn := false; start := 0; duration := 0; bytes := 0;
     netAllocs := 0; netBytes := 0; startAllocs := 0; startBytes := 0;
     failed := false; showAllocResult := false; parallelism := 0 |}.

Definition SetParallelism (p : Z) (b : B) : B :=
  if 1 <=? p then
    {| b_N := b_N b; timerOn := timerOn b; start := start b;
       duration := duration b; bytes := bytes b; netAllocs := netAllocs b;
       netBytes := netBytes b; startAllocs := startAllocs b;
       startBytes := startBytes b; failed := failed b;
       showAllocResult := showAllocResult b; parallelism := p |}
  else b.

Definition StartTimer (b : B) (st : runtime.State) : B :=
  if timerOn b then b
  else
    {| b_N := b_N b; timerOn := true; start := runtime.now st;
       duration := duration b; bytes := bytes b; netAllocs := netAllocs b;
       netBytes := netBytes b; startAllocs := runtime.Mallocs st;
       startBytes := runtime.TotalAlloc st; failed := failed b;
       showAllocResult := showAllocResult b; parallelism := parallelism b |}.

Definition StopTimer (b : B) (st : runtime.State) : B :=
  if timerOn b then
    {| b_N := b_N b; timerOn := false; start := start b;
       duration := wrap_i64 (duration b + (runtime.now st - start b));
       bytes := bytes b;
       netAllocs := wrap_u64 (netAllocs b + (runtime.Mallocs st - startAllocs b));
       netBytes := wrap_u64 (netBytes b + (runtime.TotalAlloc st - startBytes b));
       startAllocs := startAllocs b; startBytes := startBytes b;
       failed := failed b; showAllocResult := showAllocResult b;
       parallelism := parallelism b |}
  else b.

Definition ResetTimer (b : B) (st : runtime.State) : B :=
  {| b_N := b_N b; timerOn := timerOn b;
     start := if timerOn b then runtime.now st else start b;
     duration := 0; bytes := bytes b; netAllocs := 0; netBytes := 0;
     startAllocs := if timerOn b then runtime.Mallocs st else startAllocs b;
     startBytes := if timerOn b then runtime.TotalAlloc st else startBytes b;
     failed := failed b; showAllocResult := showAllocResult b;
     parallelism := parallelism b |}.

(** How the goroutine running a benchmark body ends: the body returns,
    or it leaves through [runtime.Goexit] ([b.FailNow], [b.SkipNow]). *)
Inductive ending := Returned | Goexit.

(** A benchmark body [func(b *testing.B)] may do anything to the [B] it
    is handed and to the process-wide state, and then returns or leaves
    through [Goexit].  A body that panics, ends the process or never
    returns is not represented. *)
Definition body := B -> runtime.State -> B * runtime.State * ending.

(** [testing.InternalBenchmark]. *)
Record InternalBenchmark := { Name : string; F : body }.

End testing.

(** ** Package strings *)

Module strings.

(** [strings.IndexByte]: the index of the first [c] in [s], or -1. *)
Fixpoint IndexByte (s : string) (c : ascii) : Z :=
  match s with
  | EmptyString => -1
  | String a rest =>
      if Ascii.eqb a c then 0
      else let i := IndexByte rest c in if i =? -1 then -1 else i + 1
  end.

(** The slice expressions [s[:i]] and [s[i:]], for [0 <= i <= len(s)]. *)
Definition slice_to (s : string) (i : Z) : string :=
  substring 0 (Z.to_nat i) s.
Definition slice_from (s : string) (i : Z) : string :=
  substring (Z.to_nat i) (String.length s - Z.to_nat i) s.

End strings.

(** ** The process as the server sees it *)

Inductive stream := Stdout | Stderr.

(** What one call of [fmt.Print], [fmt.Println] or [fmt.Fprintf] writes: a
    sequence of literal text and of values printed through their
    [Error], [String] or [MemString] method. *)
Inductive piece :=
| Lit (s : string)
| ErrorOf (e : strconv.NumError)
| ResultString (r : testing.BenchmarkResult)
| MemString (r : testing.BenchmarkResult).

Definition event : Type := stream * list piece.

(** One invocation of a benchmark body: its name, the [N] it was handed
    and the parallelism degree in force when it started. *)
Record call := { callName : string; callN : Z; callProcs : Z }.

(** [rt] is the process-wide runtime state, [out] what the server has
    written so far, [calls] the bodies invoked so far, oldest first. *)
Record World := {
  rt : runtime.State;
  calls : list call;
  out : list event
}.

Definition write (st : stream) (ps : list piece) (w : World) : World :=
  {| rt := rt w; calls := calls w; out := out w ++ [(st, ps)] |}.

Definition setGOMAXPROCS (n : Z) (w : World) : World :=
  {| rt := snd (runtime.GOMAXPROCS n (rt w)); calls := calls w; out := out w |}.

Definition getGOMAXPROCS (w : World) : Z := fst (runtime.GOMAXPROCS (-1) (rt w)).

(** The goroutine started by [runBenchmark], joined through the wait
    group: collect garbage, reset and start the timer, run the body, stop
    the timer.  When the body leaves through [Goexit] the deferred
    [wg.Done] still runs but [StopTimer] does not. *)
Definition runBody (b : testing.InternalBenchmark) (tb : testing.B) (w : World)
  : testing.B * World :=
  let st1 := runtime.GC (rt w) in
  let tb1 := testing.ResetTimer tb st1 in
  let tb2 := testing.StartTimer tb1 st1 in
  let '(tb3, st2, e) := testing.F b tb2 st1 in
  let tb4 := match e with
             | testing.Returned => testing.StopTimer tb3 st2
             | testing.Goexit => tb3
             end in
  (tb4,
   {| rt := st2;
      calls := calls w ++ [{| callName := testing.Name b;
                              callN := testing.b_N tb2;
                              callProcs := runtime.gomaxprocs st1 |}];
      out := out w |}).

(** How a handler leaves the serve loop: it returns, or the process exits. *)
Inductive outcome (A : Type) :=
| Continue (a : A)
| Exit (code : Z) (w : World).
Arguments Continue {A} a.
Arguments Exit {A} code w.

(** ** server.go: the line-oriented server *)

Module Line.

Record server := {
  benchmarks : list testing.InternalBenchmark;
  benchmem : bool
}.

(** [newServer] takes the benchmark slice of the test binary as it is. *)
Definition newServer (bs : list testing.InternalBenchmark) : server :=
  {| benchmarks := bs; benchmem := false |}.

Definition cmdHelp (w : World) : World :=
  write Stderr [Lit ("commands: help, list, run, set, quit, exit" +:+ LF)] w.

Definition cmdQuit (w : World) : outcome (server * World) := Exit 0 w.

Fixpoint printNames (bs : list testing.InternalBenchmark) (w : World) : World :=
  match bs with
  | [] => w
  | b :: rest => printNames rest (write Stdout [Lit (testing.Name b +:+ LF)] w)
  end.

Definition cmdList (s : server) (w : World) : World :=
  write Stdout [Lit LF] (printNames (benchmarks s) w).

Definition cmdSet (s : server) (args : list string) (w : World) : server * World :=
  match args with
  | a0 :: a1 :: _ =>
      if negb (String.eqb a0 "benchmem") then
        (s, write Stderr [Lit ("set benchmem <bool>" +:+ LF)] w)
      else
        match strconv.ParseBool a1 with
        | (_, Some err) =>
            (s, write Stderr [Lit "bad benchmem value: "; ErrorOf err; Lit LF] w)
        | (b, None) =>
            ({| benchmarks := benchmarks s; benchmem := b |}, w)
        end
  | _ => (s, write Stderr [Lit ("set benchmem <bool>" +:+ LF)] w)
  end.

(** [benchmarkName] returns full name of benchmark including procs suffix. *)
Definition benchmarkName (name : string) (n : Z) : string :=
  if negb (n =? 1) then name +:+ "-" +:+ strconv.Itoa n else name.

Record Result := {
  BenchmarkResult : testing.BenchmarkResult;
  Failed : bool;
  ShowAllocResult : bool
}.

(** [runBenchmark] runs [b] for the specified number of iterations. *)
Definition runBenchmark (b : testing.InternalBenchmark) (n : Z) (w : World)
  : Result * World :=
  let tb := testing.SetParallelism 1 (testing.newB n) in
  let '(tb, w) := runBody b tb w in
  ({| BenchmarkResult :=
        {| testing.N := n;
           testing.T := testing.duration tb;
           testing.Bytes := testing.bytes tb;
           testing.MemAllocs := testing.netAllocs tb;
           testing.MemBytes := testing.netBytes tb |};
      Failed := testing.failed tb;
      ShowAllocResult := testing.showAllocResult tb |}, w).

(** The zero [testing.InternalBenchmark]: an empty name and a nil
    function, which [cmdRun] never calls. *)
Definition zeroBenchmark : testing.InternalBenchmark :=
  {| testing.Name := ""; testing.F := fun tb st => (tb, st, testing.Goexit) |}.

(** The loop over [s.benchmarks]: the first entry named [name], or
    [bench] unchanged. *)
Fixpoint findBenchmark (bs : list testing.InternalBenchmark) (name : string)
    (bench : testing.InternalBenchmark) : testing.InternalBenchmark :=
  match bs with
  | [] => bench
  | x :: rest =>
      if String.eqb (testing.Name x) name then x else findBenchmark rest name bench
  end.

(** The name argument of [run]: split at the first '-', the rest being
    the cpu count. *)
Definition splitName (arg : string) : (string * Z) + strconv.NumError :=
  let i := strings.IndexByte arg "-" in
  if negb (i =? -1) then
    match strconv.Atoi (strings.slice_from arg (i + 1)) with
    | (_, Some err) => inr err
    | (procs, None) => inl (strings.slice_to arg i, procs)
    end
  else inl (arg, 1).

(** The first half of [cmdRun]: everything that can refuse the command.
    The result is what to run, or what to print on the error stream. *)
Definition checkRun (s : server) (args : list string)
  : (testing.InternalBenchmark * Z * Z) + list piece :=
  match args with
  | a0 :: a1 :: _ =>
      match splitName a0 with
      | inr err => inr [Lit "bad cpu value: "; ErrorOf err; Lit LF]
      | inl (name, procs) =>
          let bench := findBenchmark (benchmarks s) name zeroBenchmark in
          if String.eqb (testing.Name bench) "" then
            inr [Lit ("benchmark not found: " +:+ name +:+ LF)]
          else
            let '(iters, err) := strconv.Atoi a1 in
            if bool_decide (is_Some err) || (iters <=? 0) then
              inr [Lit ("iterations must be positive, got "
                        +:+ strconv.Itoa iters +:+ LF)]
            else inl (bench, procs, iters)
      end
  | _ => inr [Lit ("run <name>[-cpu] <iterations>" +:+ LF)]
  end.

(** The second half of [cmdRun]: print the name, set the parallelism
    degree, run, report. *)
Definition doRun (s : server) (bench : testing.InternalBenchmark)
    (procs iters : Z) (w : World) : World :=
  let benchName := benchmarkName (testing.Name bench) procs in
  let w := write Stdout [Lit (benchName +:+ TAB)] w in
  let w := setGOMAXPROCS procs w in
  let '(r, w) := runBenchmark bench iters w in
  if Failed r then
    write Stderr [Lit ("--- FAIL: " +:+ benchName +:+ LF)] w
  else
    let w := write Stdout [ResultString (BenchmarkResult r)] w in
    let w := if benchmem s || ShowAllocResult r
             then write Stdout [Lit TAB; MemString (BenchmarkResult r)] w
             else w in
    let w := write Stdout [Lit LF] w in
    let p := getGOMAXPROCS w in
    if negb (p =? procs) then
      write Stderr [Lit ("testing: " +:+ benchName +:+ " left GOMAXPROCS set to "
                         +:+ strconv.Itoa p +:+ LF)] w
    else w.

Definition cmdRun (s : server) (args : list string) (w : World) : World :=
  match checkRun s args with
  | inr msg => write Stderr msg w
  | inl (bench, procs, iters) => doRun s bench procs iters w
  end.

(** Standard input as the scanner and [strings.Fields] deliver it: the
    fields of each line, and the read error that ended the stream, if
    any. *)
Record Stdin := { records : list (list string); readErr : option string }.

(** The command table of [serve] applied to one line's fields. *)
Definition dispatch (s : server) (fields : list string) (w : World)
  : outcome (server * World) :=
  match fields with
  | [] => Continue (s, cmdHelp w)
  | cmd :: args =>
      if String.eqb cmd "help" then Continue (s, cmdHelp w)
      else if String.eqb cmd "quit" then cmdQuit w
      else if String.eqb cmd "exit" then cmdQuit w
      else if String.eqb cmd "list" then Continue (s, cmdList s w)
      else if String.eqb cmd "run" then Continue (s, cmdRun s args w)
      else if String.eqb cmd "set" then Continue (cmdSet s args w)
      else Continue (s, cmdHelp w)
  end.

Fixpoint serveLines (s : server) (lines : list (list string)) (w : World)
  : outcome (server * World) :=
  match lines with
  | [] => Continue (s, w)
  | fields :: rest =>
      match dispatch s fields w with
      | Continue (s', w') => serveLines s' rest w'
      | Exit code w' => Exit code w'
      end
  end.

Definition serve (s : server) (input : Stdin) (w : World)
  : outcome (server * World) :=
  match serveLines s (records input) w with
  | Continue (s', w') =>
      match readErr input with
      | Some err => Exit 2 (write Stdout [Lit (err +:+ LF)] w')
      | None => Continue (s', w')
      end
  | Exit code w' => Exit code w'
  end.

(** [Serve] starts a new benchmark server using the given benchmarks if
    the test.benchserve flag is set, and then never returns; otherwise
    [Serve] is a no-op. *)
Definition Serve (benchserve : bool) (bs : list testing.InternalBenchmark)
    (input : Stdin) (w : World) : outcome World :=
  if negb benchserve then Continue w
  else
    match serve (newServer bs) input w with
    | Continue (_, w') => Exit 0 w'
    | Exit code w' => Exit code w'
    end.

End Line.

(** ** The JSON-RPC server *)

Module Rpc.

(** [Options] control benchmarking behavior. *)
Record Options := { Benchmem : bool }.

(** [Server] is a benchmark server; [m] maps names to benchmarks. *)
Record Server := {
  m : gmap string testing.InternalBenchmark;
  opt : Options
}.

(** [Run] requests a single benchmark run. *)
Record Run := { Name : string; Procs : Z; N : Z }.

(** [Result] is the result of a single benchmark run. *)
Record Result := {
  BenchmarkResult : testing.BenchmarkResult;
  ReportAllocs : bool;
  failed : bool
}.

(** The zero [Result] that the RPC layer allocates for a reply. *)
Definition zeroResult : Result :=
  {| BenchmarkResult :=
       {| testing.N := 0; testing.T := 0; testing.Bytes := 0;
          testing.MemAllocs := 0; testing.MemBytes := 0 |};
     ReportAllocs := false; failed := false |}.

(** The loop of [newServer]: [log.Fatalf] on a name seen before. *)
Fixpoint register (bs : list testing.InternalBenchmark)
    (m : gmap string testing.InternalBenchmark)
  : string + gmap string testing.InternalBenchmark :=
  match bs with
  | [] => inr m
  | b :: rest =>
      match m !! testing.Name b with
      | Some _ => inl ("found two benchmarks named " +:+ testing.Name b)
      | None => register rest (<[testing.Name b := b]> m)
      end
  end.

(** [newServer] either stops the process with the message of
    [log.Fatalf] or returns the server. *)
Definition newServer (bs : list testing.InternalBenchmark) : string + Server :=
  match register bs ∅ with
  | inl msg => inl msg
  | inr m => inr {| m := m; opt := {| Benchmem := false |} |}
  end.

(** [List] returns an unordered list of the available benchmark names;
    the order of a Go map range is unspecified, the model takes the
    order of [map_to_list]. *)
Definition Server_List (s : Server) (names : list string) : list string :=
  names ++ ((fun kv => testing.Name (snd kv)) <$> map_to_list (m s)).

(** [Kill] stops the benchmark server and its process. *)
Definition Server_Kill (s : Server) (w : World) : outcome (Server * World) := Exit 0 w.

(** [Set] sets the server's [Options]. *)
Definition Server_Set (s : Server) (args : Options) : Server :=
  {| m := m s; opt := args |}.

(** [runBenchmark] runs [b] for the specified number of iterations. *)
Definition runBenchmark (b : testing.InternalBenchmark) (n : Z) (w : World)
  : Result * World :=
  let tb := testing.SetParallelism 1 (testing.newB n) in
  let '(tb, w) := runBody b tb w in
  ({| BenchmarkResult :=
        {| testing.N := n;
           testing.T := testing.duration tb;
           testing.Bytes := testing.bytes tb;
           testing.MemAllocs := testing.netAllocs tb;
           testing.MemBytes := testing.netBytes tb |};
      ReportAllocs := testing.showAllocResult tb;
      failed := testing.failed tb |}, w).

(** The method [Run]: runs a single benchmark.  The result is the value
    left in [*reply], the error returned and the process afterwards. *)
Definition Server_Run (s : Server) (args : Run) (reply : Result) (w : World)
  : Result * option string * World :=
  match m s !! Name args with
  | None => (reply, Some (Name args +:+ " not found"), w)
  | Some b =>
      let w := setGOMAXPROCS (Procs args) w in
      let '(reply, w) := runBenchmark b (N args) w in
      if failed reply then (reply, Some (Name args +:+ " failed"), w)
      else
        let p := getGOMAXPROCS w in
        if negb (p =? Procs args) then
          (reply,
           Some (testing.Name b +:+ " left GOMAXPROCS set to "
                 +:+ strconv.Itoa p +:+ LF), w)
        else (reply, None, w)
  end.

(** What the client of [net/rpc] receives for one call: when the method
    returns an error whose text is not empty, that text and no reply;
    otherwise the reply. *)
Inductive Response :=
| ErrorResponse (msg : string)
| ReplyResponse (reply : Result).

Definition respond (reply : Result) (err : option string) : Response :=
  match err with
  | Some msg => if String.eqb msg "" then ReplyResponse reply else ErrorResponse msg
  | None => ReplyResponse reply
  end.

(** A call of [Run] as its caller sees it: [net/rpc] hands the method a
    zero reply and answers with [respond]. *)
Definition callRun (s : Server) (args : Run) (w : World) : Response * World :=
  let '(reply, err, w') := Server_Run s args zeroResult w in
  (respond reply err, w').

End Rpc.

(** ** Sample processes and benchmarks

    Concrete inputs on which the statements below are exercised. *)

Module Sample.

Definition st0 : runtime.State :=
  {| runtime.gomaxprocs := 4; runtime.now := 100; runtime.Mallocs := 10;
     runtime.TotalAlloc := 1000; runtime.NumForcedGC := 0 |}.

Definition w0 : World := {| rt := st0; calls := []; out := [] |}.

(** The process after a body ran for 50ns, allocated twice and left the
    parallelism degree at [p]. *)
Definition after (p : Z) (st : runtime.State) : runtime.State :=
  {| runtime.gomaxprocs := p; runtime.now := runtime.now st + 50;
     runtime.Mallocs := runtime.Mallocs st + 2;
     runtime.TotalAlloc := runtime.TotalAlloc st + 64;
     runtime.NumForcedGC := runtime.NumForcedGC st |}.

Definition setFailed (tb : testing.B) : testing.B :=
  {| testing.b_N := testing.b_N tb; testing.timerOn := testing.timerOn tb;
     testing.start := testing.start tb; testing.duration := testing.duration tb;
     testing.bytes := testing.bytes tb; testing.netAllocs := testing.netAllocs tb;
     testing.netBytes := testing.netBytes tb;
     testing.startAllocs := testing.startAllocs tb;
     testing.startBytes := testing.startBytes tb; testing.failed := true;
     testing.showAllocResult := testing.showAllocResult tb;
     testing.parallelism := testing.parallelism tb |}.

Definition setShowAllocResult (tb : testing.B) : testing.B :=
  {| testing.b_N := testing.b_N tb; testing.timerOn := testing.timerOn tb;
     testing.start := testing.start tb; testing.duration := testing.duration tb;
     testing.bytes := testing.bytes tb; testing.netAllocs := testing.netAllocs tb;
     testing.netBytes := testing.netBytes tb;
     testing.startAllocs := testing.startAllocs tb;
     testing.startBytes := testing.startBytes tb; testing.failed := testing.failed tb;
     testing.showAllocResult := true;
     testing.parallelism := testing.parallelism tb |}.

(** A well-behaved body. *)
Definition quiet : testing.body :=
  fun tb st => (tb, after (runtime.gomaxprocs st) st, testing.Returned).

(** A body that calls [runtime.GOMAXPROCS(8)] and does not restore it. *)
Definition leaky : testing.body :=
  fun tb st => (tb, after 8 st, testing.Returned).

(** A body that calls [runtime.GOMAXPROCS(8)] and then [b.Fail()]. *)
Definition leakyFailing : testing.body :=
  fun tb st => (setFailed tb, after 8 st, testing.Returned).

(** A body that calls [b.ReportAllocs()]. *)
Definition reporting : testing.body :=
  fun tb st => (setShowAllocResult tb, after (runtime.gomaxprocs st) st, testing.Returned).

(** A body that calls [b.FailNow()]. *)
Definition failing : testing.body :=
  fun tb st => (setFailed tb, after (runtime.gomaxprocs st) st, testing.Goexit).

Definition bench (name : string) (f : testing.body) : testing.InternalBenchmark :=
  {| testing.Name := name; testing.F := f |}.

End Sample.

(** ** Observations on a command

    What a handler wrote is the part of [out] it appended; the run that
    [cmdRun] performs once it has accepted a command is [runBenchmark]
    started after the name was printed and the degree was set. *)

Definition emitted (w w' : World) : list event :=
  drop (List.length (out w)) (out w').

Definition isMemString (p : piece) : bool :=
  match p with MemString _ => true | _ => false end.

(** Whether memory statistics appear on the output stream. *)
Definition reportsMem (evs : list event) : bool :=
  existsb (fun e => match e with
                    | (Stdout, ps) => existsb isMemString ps
                    | (Stderr, _) => false
                    end) evs.

Definition onStderr (e : event) : bool :=
  match e with (Stderr, _) => true | (Stdout, _) => false end.

Definition nameLine (benchName : string) : event :=
  (Stdout, [Lit (benchName +:+ TAB)]).

Definition failNotice (benchName : string) : event :=
  (Stderr, [Lit ("--- FAIL: " +:+ benchName +:+ LF)]).

Definition leakWarning (benchName : string) (p : Z) : event :=
  (Stderr, [Lit ("testing: " +:+ benchName +:+ " left GOMAXPROCS set to "
                 +:+ strconv.Itoa p +:+ LF)]).

Definition leakError (name : string) (p : Z) : string :=
  name +:+ " left GOMAXPROCS set to " +:+ strconv.Itoa p +:+ LF.

Definition lineRun (bench : testing.InternalBenchmark) (procs iters : Z) (w : World)
  : Line.Result * World :=
  Line.runBenchmark bench iters
    (setGOMAXPROCS procs
       (write Stdout
          [Lit (Line.benchmarkName (testing.Name bench) procs +:+ TAB)] w)).

Definition rpcRun (b : testing.InternalBenchmark) (args : Rpc.Run) (w : World)
  : Rpc.Result * World :=
  Rpc.runBenchmark b (Rpc.N args) (setGOMAXPROCS (Rpc.Procs args) w).

(** The result lines of a run that did not fail, as [cmdRun] prints them. *)
Definition resultLines (benchmem : bool) (r : Line.Result) : list event :=
  [(Stdout, [ResultString (Line.BenchmarkResult r)])]
  ++ (if benchmem || Line.ShowAllocResult r
      then [(Stdout, [Lit TAB; MemString (Line.BenchmarkResult r)])] else [])
  ++ [(Stdout, [Lit LF])].

(** The benchmark name that a [run] command asks for: its first argument
    up to the first '-', or all of it when there is none. *)
Definition requestedName (arg : string) : string :=
  let i := strings.IndexByte arg "-" in
  if i =? -1 then arg else strings.slice_to arg i.

(** The four messages with which [cmdRun] refuses a command. *)
Definition runError (msg : list piece) : Prop :=
  msg = [Lit ("run <name>[-cpu] <iterations>" +:+ LF)] \/
  (exists err, msg = [Lit "bad cpu value: "; ErrorOf err; Lit LF]) \/
  (exists name, msg = [Lit ("benchmark not found: " +:+ name +:+ LF)]) \/
  (exists iters, msg = [Lit ("iterations must be positive, got "
                            +:+ strconv.Itoa iters +:+ LF)]).

(** The names of a sequence of benchmarks, in order. *)
Definition names (bs : list testing.InternalBenchmark) : list string :=
  testing.Name <$> bs.

(** ** Observations on the serve loop and on a run *)

(** The state in which a handler leaves the process, whether it returned
    or exited. *)
Definition worldOf {A : Type} (o : outcome (A * World)) : World :=
  match o with
  | Continue (_, w) => w
  | Exit _ w => w
  end.

Definition onStdout (e : event) : bool :=
  match e with (Stdout, _) => true | (Stderr, _) => false end.

Definition helpLine : event :=
  (Stderr, [Lit ("commands: help, list, run, set, quit, exit" +:+ LF)]).

(** The lines that [list] prints for a sequence of benchmarks. *)
Definition listLines (bs : list testing.InternalBenchmark) : list event :=
  (fun b => (Stdout, [Lit (testing.Name b +:+ LF)])) <$> bs.

Definition isCommand (cmd : string) (fields : list string) : bool :=
  bool_decide (head fields = Some cmd).

(** Whether a line is a [quit] or an [exit] command, and whether the
    input holds one. *)
Definition isQuit (fields : list string) : bool :=
  match fields with
  | cmd :: _ => String.eqb cmd "quit" || String.eqb cmd "exit"
  | [] => false
  end.

Definition stops (lines : list (list string)) : bool := existsb isQuit lines.

(** An input none of whose [run] commands is accepted by a server
    holding [bs]: serving it sets no degree and invokes no body. *)
Definition runsNothing (bs : list testing.InternalBenchmark)
    (lines : list (list string)) : Prop :=
  Forall (fun fields =>
            forall args, fields = "run" :: args ->
                         exists msg, Line.checkRun (Line.newServer bs) args = inr msg)
         lines.

(** The [testing.B] that [runBenchmark] hands to the body when the
    process is in state [st]: [N] set, parallelism 1, the timer reset and
    started. *)
Definition startedB (n : Z) (st : runtime.State) : testing.B :=
  testing.StartTimer
    (testing.ResetTimer (testing.SetParallelism 1 (testing.newB n)) st) st.

(** A body that leaves the timer of its [B] alone. *)
Definition timerUntouched (tb tb' : testing.B) : Prop :=
  testing.timerOn tb' = testing.timerOn tb /\
  testing.start tb' = testing.start tb /\
  testing.duration tb' = testing.duration tb /\
  testing.netAllocs tb' = testing.netAllocs tb /\
  testing.netBytes tb' = testing.netBytes tb /\
  testing.startAllocs tb' = testing.startAllocs tb /\
  testing.startBytes tb' = testing.startBytes tb.

(** A body that leaves the parallelism degree as it found it. *)
Definition keepsDegree (f : testing.body) : Prop :=
  forall tb st, runtime.gomaxprocs (f tb st).1.2 = runtime.gomaxprocs st.

(** The value of a decimal numeral read from the left, starting from [n]. *)
Fixpoint decimalValue (d : Decimal.uint) (n : Z) : Z :=
  match d with
  | Decimal.Nil => n
  | Decimal.D0 d => decimalValue d (n * 10 + 0)
  | Decimal.D1 d => decimalValue d (n * 10 + 1)
  | Decimal.D2 d => decimalValue d (n * 10 + 2)
  | Decimal.D3 d => decimalValue d (n * 10 + 3)
  | Decimal.D4 d => decimalValue d (n * 10 + 4)
  | Decimal.D5 d => decimalValue d (n * 10 + 5)
  | Decimal.D6 d => decimalValue d (n * 10 + 6)
  | Decimal.D7 d => decimalValue d (n * 10 + 7)
  | Decimal.D8 d => decimalValue d (n * 10 + 8)
  | Decimal.D9 d => decimalValue d (n * 10 + 9)
  end.

(** * Properties *)

(** ** The goroutine and [runBenchmark] *)

Lemma ResetTimer_N tb st : testing.b_N (testing.ResetTimer tb st) = testing.b_N tb.
Proof. reflexivity. Qed.

Lemma StartTimer_N tb st : testing.b_N (testing.StartTimer tb st) = testing.b_N tb.
Proof. unfold testing.StartTimer. destruct (testing.timerOn tb); reflexivity. Qed.

Lemma runBody_out b tb w : out (snd (runBody b tb w)) = out w.
Proof. unfold runBody. destruct (testing.F b _ _) as [[tb3 st2] e]. reflexivity. Qed.

Lemma runBody_calls b tb w :
  calls (snd (runBody b tb w)) =
  calls w ++ [{| callName := testing.Name b; callN := testing.b_N tb;
                 callProcs := runtime.gomaxprocs (rt w) |}].
Proof.
  unfold runBody. destruct (testing.F b _ _) as [[tb3 st2] e]. simpl.
  rewrite StartTimer_N, ResetTimer_N. reflexivity.
Qed.

Lemma Line_runBenchmark_N b n w :
  testing.N (Line.BenchmarkResult (fst (Line.runBenchmark b n w))) = n.
Proof. unfold Line.runBenchmark. destruct (runBody b _ w) as [tb w']. reflexivity. Qed.

Lemma Rpc_runBenchmark_N b n w :
  testing.N (Rpc.BenchmarkResult (fst (Rpc.runBenchmark b n w))) = n.
Proof. unfold Rpc.runBenchmark. destruct (runBody b _ w) as [tb w']. reflexivity. Qed.

Lemma Line_runBenchmark_out b n w : out (snd (Line.runBenchmark b n w)) = out w.
Proof.
  unfold Line.runBenchmark.
  pose proof (runBody_out b (testing.SetParallelism 1 (testing.newB n)) w) as H.
  destruct (runBody b _ w) as [tb w']. exact H.
Qed.

Lemma Line_runBenchmark_calls b n w :
  calls (snd (Line.runBenchmark b n w)) =
  calls w ++ [{| callName := testing.Name b; callN := n;
                 callProcs := runtime.gomaxprocs (rt w) |}].
Proof.
  unfold Line.runBenchmark.
  pose proof (runBody_calls b (testing.SetParallelism 1 (testing.newB n)) w) as H.
  destruct (runBody b _ w) as [tb w']. exact H.
Qed.

Lemma Rpc_runBenchmark_calls b n w :
  calls (snd (Rpc.runBenchmark b n w)) =
  calls w ++ [{| callName := testing.Name b; callN := n;
                 callProcs := runtime.gomaxprocs (rt w) |}].
Proof.
  unfold Rpc.runBenchmark.
  pose proof (runBody_calls b (testing.SetParallelism 1 (testing.newB n)) w) as H.
  destruct (runBody b _ w) as [tb w']. exact H.
Qed.

(** C1. Whatever the body of the benchmark does to the [testing.B] it is
    given (its [N] included) and to the process, the result assembled by
    [runBenchmark] carries the requested iteration count, in the line
    server and in the RPC server alike; so does the reply that the RPC
    method [Run] leaves for a registered benchmark. *)
Theorem result_iterations_equal_request :
  (forall b n w,
      testing.N (Line.BenchmarkResult (fst (Line.runBenchmark b n w))) = n /\
      testing.N (Rpc.BenchmarkResult (fst (Rpc.runBenchmark b n w))) = n) /\
  (forall s args reply w b,
      Rpc.m s !! Rpc.Name args = Some b ->
      0 < Rpc.N args ->
      testing.N (Rpc.BenchmarkResult (Rpc.Server_Run s args reply w).1.1)
      = Rpc.N args).
Proof.
  split.
  - intros b n w. split; [apply Line_runBenchmark_N | apply Rpc_runBenchmark_N].
  - intros s args reply w b Hb _. unfold Rpc.Server_Run. rewrite Hb.
    pose proof (Rpc_runBenchmark_N b (Rpc.N args) (setGOMAXPROCS (Rpc.Procs args) w)) as H.
    destruct (Rpc.runBenchmark b _ _) as [r w1]. simpl in H.
    destruct (Rpc.failed r); [exact H|].
    destruct (negb _); exact H.
Qed.

(** A body that overwrites [b.N] and fails, run over RPC for 7 iterations. *)
Lemma result_iterations_equal_request_witness :
  let b := Sample.bench "Foo"
             (fun tb st => (Sample.setFailed (testing.newB 1), st, testing.Goexit)) in
  testing.N (Rpc.BenchmarkResult
               (Rpc.Server_Run
                  {| Rpc.m := {["Foo" := b]}; Rpc.opt := {| Rpc.Benchmem := false |} |}
                  {| Rpc.Name := "Foo"; Rpc.Procs := 2; Rpc.N := 7 |}
                  Rpc.zeroResult Sample.w0).1.1) = 7.
Proof.
  intros b.
  apply (proj2 result_iterations_equal_request _
           {| Rpc.Name := "Foo"; Rpc.Procs := 2; Rpc.N := 7 |}
           Rpc.zeroResult Sample.w0 b); [reflexivity | reflexivity].
Defined.

(** ** What an accepted [run] command writes *)

Lemma emitted_app w w' evs : out w' = out w ++ evs -> emitted w w' = evs.
Proof. intros H. unfold emitted. rewrite H. apply drop_app_length. Qed.

Lemma getGOMAXPROCS_write st ps w : getGOMAXPROCS (write st ps w) = getGOMAXPROCS w.
Proof. reflexivity. Qed.

Lemma doRun_out s bench procs iters w :
  let benchName := Line.benchmarkName (testing.Name bench) procs in
  let r := fst (lineRun bench procs iters w) in
  let w1 := snd (lineRun bench procs iters w) in
  out (Line.doRun s bench procs iters w) =
  out w ++ nameLine benchName ::
    (if Line.Failed r then [failNotice benchName]
     else resultLines (Line.benchmem s) r
          ++ (if negb (getGOMAXPROCS w1 =? procs)
              then [leakWarning benchName (getGOMAXPROCS w1)] else [])).
Proof.
  intros benchName r w1. subst r w1. unfold Line.doRun, lineRun.
  fold benchName.
  pose proof (Line_runBenchmark_out bench iters
    (setGOMAXPROCS procs (write Stdout [Lit (benchName +:+ TAB)] w))) as Hout.
  destruct (Line.runBenchmark bench iters _) as [r w1]. simpl in Hout. simpl fst; simpl snd.
  destruct (Line.Failed r).
  - simpl. rewrite Hout, <- app_assoc. reflexivity.
  - unfold resultLines, leakWarning, nameLine.
    destruct (Line.benchmem s || Line.ShowAllocResult r);
      rewrite !getGOMAXPROCS_write;
      destruct (negb (getGOMAXPROCS w1 =? procs)); simpl; rewrite Hout;
      simpl; rewrite <- ?app_assoc; reflexivity.
Qed.

Lemma doRun_rt s bench procs iters w :
  rt (Line.doRun s bench procs iters w) = rt (snd (lineRun bench procs iters w)).
Proof.
  unfold Line.doRun, lineRun.
  destruct (Line.runBenchmark bench iters _) as [r w1]. simpl.
  destruct (Line.Failed r); [reflexivity|].
  destruct (Line.benchmem s || Line.ShowAllocResult r);
    destruct (negb _); reflexivity.
Qed.

Lemma doRun_calls s bench procs iters w :
  calls (Line.doRun s bench procs iters w) =
  calls w ++ [{| callName := testing.Name bench; callN := iters;
                 callProcs := if procs <=? 0 then runtime.gomaxprocs (rt w)
                              else procs |}].
Proof.
  unfold Line.doRun.
  pose proof (Line_runBenchmark_calls bench iters
    (setGOMAXPROCS procs
       (write Stdout [Lit (Line.benchmarkName (testing.Name bench) procs +:+ TAB)] w)))
    as Hc.
  destruct (Line.runBenchmark bench iters _) as [r w1]. simpl in Hc.
  assert (calls w1 = calls w ++
    [{| callName := testing.Name bench; callN := iters;
        callProcs := if procs <=? 0 then runtime.gomaxprocs (rt w) else procs |}]) as Hc'.
  { rewrite Hc. destruct (procs <=? 0); reflexivity. }
  destruct (Line.Failed r); [exact Hc'|].
  destruct (Line.benchmem s || Line.ShowAllocResult r);
    destruct (negb _); exact Hc'.
Qed.

Lemma cmdRun_accepted s args bench procs iters w :
  Line.checkRun s args = inl (bench, procs, iters) ->
  Line.cmdRun s args w = Line.doRun s bench procs iters w.
Proof. intros H. unfold Line.cmdRun. rewrite H. reflexivity. Qed.

Lemma cmdRun_refused s args msg w :
  Line.checkRun s args = inr msg ->
  Line.cmdRun s args w = write Stderr msg w.
Proof. intros H. unfold Line.cmdRun. rewrite H. reflexivity. Qed.

Lemma Server_Run_found s args reply w b :
  Rpc.m s !! Rpc.Name args = Some b ->
  let r := fst (rpcRun b args w) in
  let w1 := snd (rpcRun b args w) in
  Rpc.Server_Run s args reply w =
  (r,
   if Rpc.failed r then Some (Rpc.Name args +:+ " failed")
   else if negb (getGOMAXPROCS w1 =? Rpc.Procs args)
        then Some (leakError (testing.Name b) (getGOMAXPROCS w1))
        else None,
   w1).
Proof.
  intros Hb r w1. subst r w1. unfold Rpc.Server_Run, rpcRun. rewrite Hb.
  destruct (Rpc.runBenchmark b _ _) as [r w1]. simpl.
  destruct (Rpc.failed r); [reflexivity|].
  destruct (negb _); reflexivity.
Qed.

(** ** Parallelism leaks *)

Lemma leakError_not_empty name p : String.eqb (leakError name p) "" = false.
Proof. unfold leakError. destruct name; reflexivity. Qed.

(** C2, as amended. When the engine does not report the run as failed and
    the body left the parallelism degree different from the requested
    one, the leak is reported.  On the line server it comes in addition
    to the result: the display name and the result lines are printed and
    then the leak warning goes to the error stream.  On the RPC server
    it comes instead of the result: [Run] leaves the result in the reply
    and returns the leak as its error, and its caller receives that error
    and no reply. *)
Theorem leak_reported_with_result_or_as_error :
  (forall s args bench procs iters w,
      Line.checkRun s args = inl (bench, procs, iters) ->
      let benchName := Line.benchmarkName (testing.Name bench) procs in
      let r := fst (lineRun bench procs iters w) in
      let w1 := snd (lineRun bench procs iters w) in
      Line.Failed r = false ->
      getGOMAXPROCS w1 <> procs ->
      emitted w (Line.cmdRun s args w) =
      nameLine benchName :: resultLines (Line.benchmem s) r
        ++ [leakWarning benchName (getGOMAXPROCS w1)]) /\
  (forall s args reply w b,
      Rpc.m s !! Rpc.Name args = Some b ->
      let r := fst (rpcRun b args w) in
      let w1 := snd (rpcRun b args w) in
      Rpc.failed r = false ->
      getGOMAXPROCS w1 <> Rpc.Procs args ->
      Rpc.Server_Run s args reply w =
      (r, Some (leakError (testing.Name b) (getGOMAXPROCS w1)), w1) /\
      Rpc.callRun s args w =
      (Rpc.ErrorResponse (leakError (testing.Name b) (getGOMAXPROCS w1)), w1)).
Proof.
  split.
  - intros s args bench procs iters w Hc benchName r w1 Hf Hp.
    rewrite (cmdRun_accepted _ _ _ _ _ _ Hc).
    apply emitted_app. rewrite doRun_out.
    fold benchName r w1. rewrite Hf.
    destruct (Z.eqb_spec (getGOMAXPROCS w1) procs) as [E|_]; [contradiction|].
    reflexivity.
  - intros s args reply w b Hb r w1 Hf Hp.
    assert (forall reply', Rpc.Server_Run s args reply' w =
              (r, Some (leakError (testing.Name b) (getGOMAXPROCS w1)), w1)) as Hrun.
    { intros reply'. rewrite (Server_Run_found _ _ _ _ _ Hb). fold r w1. rewrite Hf.
      destruct (Z.eqb_spec (getGOMAXPROCS w1) (Rpc.Procs args)) as [E|_];
        [contradiction | reflexivity]. }
    split; [apply Hrun|].
    unfold Rpc.callRun. rewrite Hrun. unfold Rpc.respond.
    rewrite leakError_not_empty. reflexivity.
Qed.

(** A run of [leaky] on both servers. *)
Lemma leak_reported_with_result_or_as_error_witness :
  emitted Sample.w0
    (Line.cmdRun (Line.newServer [Sample.bench "Foo" Sample.leaky])
       ["Foo-2"; "10"] Sample.w0) =
  [nameLine "Foo-2";
   (Stdout, [ResultString {| testing.N := 10; testing.T := 50; testing.Bytes := 0;
                             testing.MemAllocs := 2; testing.MemBytes := 64 |}]);
   (Stdout, [Lit LF]);
   leakWarning "Foo-2" 8] /\
  (Rpc.callRun
     {| Rpc.m := {["Foo" := Sample.bench "Foo" Sample.leaky]};
        Rpc.opt := {| Rpc.Benchmem := false |} |}
     {| Rpc.Name := "Foo"; Rpc.Procs := 2; Rpc.N := 10 |} Sample.w0).1
  = Rpc.ErrorResponse (leakError "Foo" 8).
Proof.
  split.
  - apply (proj1 leak_reported_with_result_or_as_error
             (Line.newServer [Sample.bench "Foo" Sample.leaky]) ["Foo-2"; "10"]
             (Sample.bench "Foo" Sample.leaky) 2 10 Sample.w0);
      [reflexivity | reflexivity | vm_compute; discriminate].
  - destruct (proj2 leak_reported_with_result_or_as_error
                {| Rpc.m := {["Foo" := Sample.bench "Foo" Sample.leaky]};
                   Rpc.opt := {| Rpc.Benchmem := false |} |}
                {| Rpc.Name := "Foo"; Rpc.Procs := 2; Rpc.N := 10 |}
                Rpc.zeroResult Sample.w0 (Sample.bench "Foo" Sample.leaky))
      as [_ H]; [reflexivity | reflexivity | vm_compute; discriminate|].
    rewrite H. reflexivity.
Defined.

(** Two runs in which the body leaves the degree at 8.  On the line
    server the body also fails while degree 1 was requested: the name and
    the failure notice are printed, neither the result nor a leak
    warning.  Over RPC the body does not fail while degree 2 was
    requested: the caller receives the leak error, not the result.  Over
    RPC with the failing body the caller receives the failure only. *)
Lemma leak_report_misses_or_replaces_result :
  let w' := Line.cmdRun (Line.newServer [Sample.bench "Foo" Sample.leakyFailing])
              ["Foo"; "10"] Sample.w0 in
  let server b := {| Rpc.m := {["Foo" := Sample.bench "Foo" b]};
                     Rpc.opt := {| Rpc.Benchmem := false |} |} in
  let request := {| Rpc.Name := "Foo"; Rpc.Procs := 2; Rpc.N := 10 |} in
  (getGOMAXPROCS w' = 8 /\ out w' = [nameLine "Foo"; failNotice "Foo"]) /\
  (Rpc.callRun (server Sample.leaky) request Sample.w0).1
  = Rpc.ErrorResponse (leakError "Foo" 8) /\
  (getGOMAXPROCS (Rpc.callRun (server Sample.leakyFailing) request Sample.w0).2 = 8 /\
   (Rpc.callRun (server Sample.leakyFailing) request Sample.w0).1
   = Rpc.ErrorResponse "Foo failed").
Proof. repeat split; reflexivity. Qed.

Lemma resultLines_stderr benchmem r : List.filter onStderr (resultLines benchmem r) = [].
Proof.
  unfold resultLines. destruct (benchmem || Line.ShowAllocResult r); reflexivity.
Qed.

Lemma filter_nameLine n l :
  List.filter onStderr (nameLine n :: l) = List.filter onStderr l.
Proof. reflexivity. Qed.

(** C3, as amended. After a run that the engine does not report as failed
    the degree is read again and compared with the requested one: the line
    server writes the leak warning, and nothing else, on the error stream
    exactly when they differ, and the RPC method returns the leak error
    exactly when they differ.  After a run reported as failed the only
    report is the failure. *)
Theorem leak_check_after_unfailed_run :
  (forall s args bench procs iters w,
      Line.checkRun s args = inl (bench, procs, iters) ->
      let benchName := Line.benchmarkName (testing.Name bench) procs in
      let r := fst (lineRun bench procs iters w) in
      let p := getGOMAXPROCS (snd (lineRun bench procs iters w)) in
      List.filter onStderr (emitted w (Line.cmdRun s args w)) =
      if Line.Failed r then [failNotice benchName]
      else if bool_decide (p = procs) then []
           else [leakWarning benchName p]) /\
  (forall s args reply w b,
      Rpc.m s !! Rpc.Name args = Some b ->
      let r := fst (rpcRun b args w) in
      let p := getGOMAXPROCS (snd (rpcRun b args w)) in
      (Rpc.Server_Run s args reply w).1.2 =
      if Rpc.failed r then Some (Rpc.Name args +:+ " failed")
      else if bool_decide (p = Rpc.Procs args) then None
           else Some (leakError (testing.Name b) p)).
Proof.
  split.
  - intros s args bench procs iters w Hc benchName r p.
    rewrite (cmdRun_accepted _ _ _ _ _ _ Hc).
    rewrite (emitted_app w _ _ (doRun_out s bench procs iters w)).
    fold benchName r p. rewrite filter_nameLine.
    destruct (Line.Failed r); [reflexivity|].
    rewrite List.filter_app, resultLines_stderr. simpl app.
    case_bool_decide as E.
    + rewrite E, Z.eqb_refl. reflexivity.
    + apply Z.eqb_neq in E. rewrite E. reflexivity.
  - intros s args reply w b Hb r p.
    rewrite (Server_Run_found _ _ _ _ _ Hb). fold r p. simpl.
    destruct (Rpc.failed r); [reflexivity|].
    case_bool_decide as E.
    + rewrite E, Z.eqb_refl. reflexivity.
    + apply Z.eqb_neq in E. rewrite E. reflexivity.
Qed.

(** A restored degree, a leak and a failure, on both servers. *)
Lemma leak_check_after_unfailed_run_witness :
  List.filter onStderr
    (emitted Sample.w0
       (Line.cmdRun (Line.newServer [Sample.bench "Foo" Sample.quiet])
          ["Foo-2"; "10"] Sample.w0)) = [] /\
  List.filter onStderr
    (emitted Sample.w0
       (Line.cmdRun (Line.newServer [Sample.bench "Foo" Sample.leaky])
          ["Foo-2"; "10"] Sample.w0)) = [leakWarning "Foo-2" 8] /\
  (Rpc.Server_Run
     {| Rpc.m := {["Foo" := Sample.bench "Foo" Sample.failing]};
        Rpc.opt := {| Rpc.Benchmem := false |} |}
     {| Rpc.Name := "Foo"; Rpc.Procs := 2; Rpc.N := 10 |}
     Rpc.zeroResult Sample.w0).1.2 = Some "Foo failed".
Proof.
  split; [|split].
  - rewrite (proj1 leak_check_after_unfailed_run
               (Line.newServer [Sample.bench "Foo" Sample.quiet]) ["Foo-2"; "10"]
               (Sample.bench "Foo" Sample.quiet) 2 10 Sample.w0);
      reflexivity.
  - rewrite (proj1 leak_check_after_unfailed_run
               (Line.newServer [Sample.bench "Foo" Sample.leaky]) ["Foo-2"; "10"]
               (Sample.bench "Foo" Sample.leaky) 2 10 Sample.w0);
      reflexivity.
  - rewrite (proj2 leak_check_after_unfailed_run _
               {| Rpc.Name := "Foo"; Rpc.Procs := 2; Rpc.N := 10 |}
               Rpc.zeroResult Sample.w0 (Sample.bench "Foo" Sample.failing));
      reflexivity.
Defined.

(** A failing body leaves the degree at 8 while 2 was requested: the RPC
    method returns the failure, the line server prints the failure
    notice, and neither says anything about the degree. *)
Lemma failed_run_skips_leak_check :
  let b := Sample.bench "Bar" Sample.leakyFailing in
  let reply := Rpc.Server_Run
                 {| Rpc.m := {["Bar" := b]}; Rpc.opt := {| Rpc.Benchmem := false |} |}
                 {| Rpc.Name := "Bar"; Rpc.Procs := 2; Rpc.N := 5 |}
                 Rpc.zeroResult Sample.w0 in
  let w' := Line.cmdRun (Line.newServer [b]) ["Bar-2"; "5"] Sample.w0 in
  (reply.1.2 = Some "Bar failed" /\ getGOMAXPROCS reply.2 = 8) /\
  (List.filter onStderr (out w') = [failNotice "Bar-2"] /\ getGOMAXPROCS w' = 8).
Proof. repeat split; reflexivity. Qed.

(** ** Refused [run] commands *)

Lemma findBenchmark_absent bs name d :
  (forall b, b ∈ bs -> testing.Name b <> name) ->
  Line.findBenchmark bs name d = d.
Proof.
  induction bs as [|x bs IH]; intros H; simpl; [reflexivity|].
  destruct (String.eqb_spec (testing.Name x) name) as [E|_].
  - exfalso. apply (H x); [left | exact E].
  - apply IH. intros b Hb. apply H. right. exact Hb.
Qed.

Lemma findBenchmark_cases bs name d :
  Line.findBenchmark bs name d = d \/
  (Line.findBenchmark bs name d ∈ bs /\
   testing.Name (Line.findBenchmark bs name d) = name).
Proof.
  induction bs as [|x bs IH]; simpl; [left; reflexivity|].
  destruct (String.eqb_spec (testing.Name x) name) as [E|_].
  - right. split; [left | exact E].
  - destruct IH as [IH|[IH1 IH2]]; [left; exact IH | right].
    split; [right; exact IH1 | exact IH2].
Qed.

Lemma splitName_name arg name procs :
  Line.splitName arg = inl (name, procs) -> name = requestedName arg.
Proof.
  unfold Line.splitName, requestedName.
  destruct (strings.IndexByte arg "-" =? -1); simpl.
  - intros [= <- _]. reflexivity.
  - destruct (strconv.Atoi _) as [p [e|]]; [discriminate|].
    intros [= <- _]. reflexivity.
Qed.

Lemma checkRun_refuses s args :
  match args with
  | a0 :: a1 :: _ =>
      (forall b, b ∈ Line.benchmarks s -> testing.Name b <> requestedName a0) \/
      (strconv.Atoi a1).2 <> None \/
      (strconv.Atoi a1).1 <= 0
  | _ => True
  end ->
  exists msg, runError msg /\ Line.checkRun s args = inr msg.
Proof.
  unfold runError.
  destruct args as [|a0 [|a1 rest]]; intros H; simpl;
    [eexists; split; [left; reflexivity | reflexivity] ..|].
  destruct (Line.splitName a0) as [[name procs]|err] eqn:Hs;
    [|eexists; split; [right; left; eexists; reflexivity | reflexivity]].
  apply splitName_name in Hs. subst name.
  destruct (String.eqb_spec
              (testing.Name (Line.findBenchmark (Line.benchmarks s)
                               (requestedName a0) Line.zeroBenchmark)) "")
    as [_|Hname];
    [eexists; split; [right; right; left; eexists; reflexivity | reflexivity]|].
  assert ((strconv.Atoi a1).2 <> None \/ (strconv.Atoi a1).1 <= 0) as H'.
  { destruct H as [H|H]; [|exact H]. exfalso. apply Hname.
    rewrite findBenchmark_absent by exact H. reflexivity. }
  destruct (strconv.Atoi a1) as [iters err]. simpl in H'.
  assert (bool_decide (is_Some err) || (iters <=? 0) = true) as ->.
  { destruct H' as [He|Hi].
    - destruct err as [e|]; [|contradiction]. reflexivity.
    - apply orb_true_iff. right. apply Z.leb_le. exact Hi. }
  eexists; split; [right; right; right; eexists; reflexivity | reflexivity].
Qed.

(** C4. A [run] command that names no registered benchmark, or whose
    iteration argument does not parse or is not positive (or is missing),
    writes one of the four error messages of [cmdRun] on the error stream
    and does nothing else: no body is invoked and the runtime state is
    untouched.  The RPC method [Run] for an unregistered name returns the
    not-found error and leaves reply and process as they were. *)
Theorem run_refused_without_running :
  (forall s args w,
      match args with
      | a0 :: a1 :: _ =>
          (forall b, b ∈ Line.benchmarks s -> testing.Name b <> requestedName a0) \/
          (strconv.Atoi a1).2 <> None \/
          (strconv.Atoi a1).1 <= 0
      | _ => True
      end ->
      exists msg,
        runError msg /\
        out (Line.cmdRun s args w) = out w ++ [(Stderr, msg)] /\
        calls (Line.cmdRun s args w) = calls w /\
        rt (Line.cmdRun s args w) = rt w) /\
  (forall s args reply w,
      Rpc.m s !! Rpc.Name args = None ->
      Rpc.Server_Run s args reply w
      = (reply, Some (Rpc.Name args +:+ " not found"), w)).
Proof.
  split.
  - intros s args w H.
    destruct (checkRun_refuses s args H) as (msg & Hmsg & Hc).
    exists msg. rewrite (cmdRun_refused _ _ _ _ Hc). repeat split. exact Hmsg.
  - intros s args reply w H. unfold Rpc.Server_Run. rewrite H. reflexivity.
Qed.

(** An unregistered name, a malformed count, a count of zero and a
    missing count on the line server; an unregistered name over RPC. *)
Lemma run_refused_without_running_witness :
  let s := Line.newServer [Sample.bench "Foo" Sample.quiet] in
  (forall args,
      args ∈ [["Bar"; "10"]; ["Foo"; "ten"]; ["Foo-2"; "0"]; ["Foo"]] ->
      exists msg, runError msg /\
        out (Line.cmdRun s args Sample.w0) = [(Stderr, msg)] /\
        calls (Line.cmdRun s args Sample.w0) = [] /\
        rt (Line.cmdRun s args Sample.w0) = Sample.st0) /\
  Rpc.Server_Run
    {| Rpc.m := {["Foo" := Sample.bench "Foo" Sample.quiet]};
       Rpc.opt := {| Rpc.Benchmem := false |} |}
    {| Rpc.Name := "Bar"; Rpc.Procs := 1; Rpc.N := 10 |} Rpc.zeroResult Sample.w0
  = (Rpc.zeroResult, Some "Bar not found", Sample.w0).
Proof.
  intros s. split.
  - intros args Hargs.
    apply (proj1 run_refused_without_running s args Sample.w0).
    repeat (apply elem_of_cons in Hargs; destruct Hargs as [->|Hargs]);
      [| | | |apply elem_of_nil in Hargs; contradiction].
    + left. intros b Hb. apply list_elem_of_singleton in Hb. subst b.
      vm_compute. discriminate.
    + right. left. vm_compute. discriminate.
    + right. right. vm_compute. discriminate.
    + exact I.
  - apply (proj2 run_refused_without_running). reflexivity.
Defined.

Lemma printNames_spec bs : forall w,
  Line.printNames bs w
  = {| rt := rt w; calls := calls w; out := out w ++ listLines bs |}.
Proof.
  induction bs as [|b bs IH]; intros w; simpl.
  - rewrite app_nil_r. destruct w; reflexivity.
  - rewrite IH. simpl. rewrite <- app_assoc. reflexivity.
Qed.

(** ** Building the registry *)

Section Registry.

Implicit Types (bs : list testing.InternalBenchmark)
               (m : gmap string testing.InternalBenchmark).

(** Names not yet in the map and pairwise distinct: [register] finishes,
    and the map it returns holds every entry under its name. *)
Lemma register_distinct bs : forall m,
  NoDup (names bs) ->
  (forall b, b ∈ bs -> m !! testing.Name b = None) ->
  exists m', Rpc.register bs m = inr m' /\
             forall b, b ∈ bs -> m' !! testing.Name b = Some b.
Proof.
  assert (forall bs m, NoDup (names bs) ->
            (forall b, b ∈ bs -> m !! testing.Name b = None) ->
            exists m', Rpc.register bs m = inr m' /\
              (forall b, b ∈ bs -> m' !! testing.Name b = Some b) /\
              (forall k, k ∉ names bs -> m' !! k = m !! k)) as Hgen.
  { clear bs. induction bs as [|x bs IH]; intros m Hnd Hfresh; simpl.
    - exists m. split; [reflexivity|]. split; [|reflexivity].
      intros b Hb. apply elem_of_nil in Hb. contradiction.
    - rewrite (Hfresh x) by left.
      apply NoDup_cons in Hnd as [Hx Hnd].
      destruct (IH (<[testing.Name x := x]> m) Hnd) as (m' & Hr & Hin & Hout).
      { intros b Hb. rewrite lookup_insert_ne.
        - apply Hfresh. right. exact Hb.
        - intros E. apply Hx. rewrite E. unfold names.
          apply list_elem_of_fmap. exists b. split; [reflexivity | exact Hb]. }
      exists m'. split; [exact Hr|]. split.
      + intros b Hb. apply elem_of_cons in Hb as [->|Hb]; [|apply Hin; exact Hb].
        rewrite (Hout _ Hx). apply lookup_insert_eq.
      + intros k Hk. apply not_elem_of_cons in Hk as [Hk1 Hk2].
        rewrite (Hout _ Hk2). apply lookup_insert_ne. congruence. }
  intros m Hnd Hfresh. destruct (Hgen bs m Hnd Hfresh) as (m' & Hr & Hin & _).
  exists m'. split; assumption.
Qed.

(** Conversely [register] finishes only on such a sequence. *)
Lemma register_finishes bs : forall m m',
  Rpc.register bs m = inr m' ->
  NoDup (names bs) /\ forall b, b ∈ bs -> m !! testing.Name b = None.
Proof.
  induction bs as [|x bs IH]; intros m m' Hr; simpl in *.
  - split; [constructor|]. intros b Hb. apply elem_of_nil in Hb. contradiction.
  - destruct (m !! testing.Name x) eqn:Hx; [discriminate|].
    destruct (IH _ _ Hr) as [Hnd Hfresh].
    assert (forall b, b ∈ bs -> testing.Name b <> testing.Name x) as Hne.
    { intros b Hb E. specialize (Hfresh b Hb).
      rewrite E, lookup_insert_eq in Hfresh. discriminate. }
    split.
    + apply NoDup_cons. split; [|exact Hnd].
      intros Hin. apply list_elem_of_fmap in Hin as (b & E & Hb).
      apply (Hne b Hb). symmetry. exact E.
    + intros b Hb. apply elem_of_cons in Hb as [->|Hb]; [exact Hx|].
      specialize (Hfresh b Hb). rewrite lookup_insert_ne in Hfresh; [exact Hfresh|].
      intros E. apply (Hne b Hb). symmetry. exact E.
Qed.

(** The message of [log.Fatalf] names an entry of the sequence. *)
Lemma register_fatal bs : forall m msg,
  Rpc.register bs m = inl msg ->
  exists b, b ∈ bs /\ msg = "found two benchmarks named " +:+ testing.Name b.
Proof.
  induction bs as [|x bs IH]; intros m msg Hr; simpl in *; [discriminate|].
  destruct (m !! testing.Name x).
  - injection Hr as <-. exists x. split; [left | reflexivity].
  - destruct (IH _ _ Hr) as (b & Hb & Hmsg). exists b. split; [right|]; assumption.
Qed.

End Registry.

Lemma findBenchmark_first pre b post d :
  (forall x, x ∈ pre -> testing.Name x <> testing.Name b) ->
  Line.findBenchmark (pre ++ b :: post) (testing.Name b) d = b.
Proof.
  induction pre as [|x pre IH]; intros H; simpl.
  - rewrite String.eqb_refl. reflexivity.
  - destruct (String.eqb_spec (testing.Name x) (testing.Name b)) as [E|_].
    + exfalso. apply (H x); [left | exact E].
    + apply IH. intros y Hy. apply H. right. exact Hy.
Qed.

(** C5, as amended. The RPC server is built exactly when the names
    are pairwise distinct, and then holds every entry under its name;
    with a repeated name [newServer] stops the process with a message
    naming an entry, and no server is produced.  The line server makes no
    such check: it is built from the sequence as it is given, repeated
    names included, and it serves, [list] printing every entry. *)
Theorem duplicate_names_by_variant (bs : list testing.InternalBenchmark) :
  (NoDup (names bs) ->
   exists s, Rpc.newServer bs = inr s /\
             forall b, b ∈ bs -> Rpc.m s !! testing.Name b = Some b) /\
  (~ NoDup (names bs) ->
   exists b, b ∈ bs /\
             Rpc.newServer bs = inl ("found two benchmarks named " +:+ testing.Name b)) /\
  Line.benchmarks (Line.newServer bs) = bs /\
  (forall lines w,
      Line.serveLines (Line.newServer bs) (["list"] :: lines) w
      = Line.serveLines (Line.newServer bs) lines
          {| rt := rt w; calls := calls w;
             out := out w ++ listLines bs ++ [(Stdout, [Lit LF])] |}).
Proof.
  split; [|split; [|split]].
  - intros Hnd. unfold Rpc.newServer.
    destruct (register_distinct bs ∅ Hnd) as (m' & Hr & Hin).
    { intros b _. apply lookup_empty. }
    rewrite Hr. eexists. split; [reflexivity | exact Hin].
  - intros Hnd. unfold Rpc.newServer.
    destruct (Rpc.register bs ∅) as [msg|m'] eqn:Hr.
    + destruct (register_fatal _ _ _ Hr) as (b & Hb & ->). exists b. split; [exact Hb | reflexivity].
    + exfalso. apply Hnd. exact (proj1 (register_finishes _ _ _ Hr)).
  - reflexivity.
  - intros lines w. cbn [Line.serveLines]. unfold Line.dispatch. simpl String.eqb.
    cbv iota. unfold Line.cmdList. rewrite printNames_spec. unfold write. simpl.
    rewrite <- app_assoc. reflexivity.
Qed.

(** Two distinct names, and the same name twice. *)
Lemma duplicate_names_by_variant_witness :
  let foo := Sample.bench "Foo" Sample.quiet in
  let bar := Sample.bench "Bar" Sample.leaky in
  let foo' := Sample.bench "Foo" Sample.leakyFailing in
  (exists s, Rpc.newServer [foo; bar] = inr s /\
             forall b, b ∈ [foo; bar] -> Rpc.m s !! testing.Name b = Some b) /\
  (exists b, b ∈ [foo; bar; foo'] /\
             Rpc.newServer [foo; bar; foo']
             = inl ("found two benchmarks named " +:+ testing.Name b)) /\
  Line.serveLines (Line.newServer [foo; bar; foo']) [["list"]] Sample.w0
  = Continue (Line.newServer [foo; bar; foo'],
              {| rt := Sample.st0; calls := [];
                 out := [(Stdout, [Lit ("Foo" +:+ LF)]); (Stdout, [Lit ("Bar" +:+ LF)]);
                         (Stdout, [Lit ("Foo" +:+ LF)]); (Stdout, [Lit LF])] |}).
Proof.
  intros foo bar foo'. split; [|split].
  - apply (proj1 (duplicate_names_by_variant [foo; bar])).
    apply (bool_decide_unpack _). vm_compute. exact I.
  - apply (proj1 (proj2 (duplicate_names_by_variant [foo; bar; foo']))).
    apply (bool_decide_unpack _). vm_compute. exact I.
  - exact (proj2 (proj2 (proj2 (duplicate_names_by_variant [foo; bar; foo'])))
             [] Sample.w0).
Defined.

(** The line server built from two entries named [Foo] serves: [run Foo 10]
    runs the first of them, while the RPC server stops on the same
    sequence. *)
Lemma line_server_serves_duplicates :
  let bs := [Sample.bench "Foo" Sample.quiet; Sample.bench "Foo" Sample.leakyFailing] in
  Line.benchmarks (Line.newServer bs) = bs /\
  Line.cmdRun (Line.newServer bs) ["Foo"; "10"] Sample.w0 =
  {| rt := Sample.after 1 (runtime.GC (snd (runtime.GOMAXPROCS 1 Sample.st0)));
     calls := [{| callName := "Foo"; callN := 10; callProcs := 1 |}];
     out := [nameLine "Foo";
             (Stdout, [ResultString {| testing.N := 10; testing.T := 50;
                                       testing.Bytes := 0; testing.MemAllocs := 2;
                                       testing.MemBytes := 64 |}]);
             (Stdout, [Lit LF])] |} /\
  Rpc.newServer bs = inl "found two benchmarks named Foo".
Proof. repeat split; reflexivity. Qed.

(** ** Accepted [run] commands *)

Lemma findBenchmark_present bs name d :
  name ∈ names bs ->
  Line.findBenchmark bs name d ∈ bs /\
  testing.Name (Line.findBenchmark bs name d) = name.
Proof.
  induction bs as [|x bs IH]; intros Hin; simpl.
  - apply elem_of_nil in Hin. contradiction.
  - destruct (String.eqb_spec (testing.Name x) name) as [E|Hne].
    + split; [left | exact E].
    + apply elem_of_cons in Hin as [E|Hin]; [symmetry in E; contradiction|].
      destruct (IH Hin) as [H1 H2]. split; [right; exact H1 | exact H2].
Qed.

Lemma checkRun_accepts s a0 a1 rest name procs iters :
  Line.splitName a0 = inl (name, procs) ->
  name ∈ names (Line.benchmarks s) ->
  name <> "" ->
  strconv.Atoi a1 = (iters, None) ->
  0 < iters ->
  Line.checkRun s (a0 :: a1 :: rest)
  = inl (Line.findBenchmark (Line.benchmarks s) name Line.zeroBenchmark, procs, iters).
Proof.
  intros Hs Hin Hne Ha Hpos. unfold Line.checkRun. rewrite Hs.
  destruct (findBenchmark_present _ _ Line.zeroBenchmark Hin) as [_ Hname].
  rewrite Hname. destruct (String.eqb_spec name "") as [E|_]; [contradiction|].
  rewrite Ha. replace (iters <=? 0) with false by (symmetry; apply Z.leb_gt; exact Hpos).
  reflexivity.
Qed.

(** ** Memory statistics *)

Lemma reportsMem_resultLines benchmem r :
  reportsMem (resultLines benchmem r) = benchmem || Line.ShowAllocResult r.
Proof.
  unfold resultLines. destruct (benchmem || Line.ShowAllocResult r); reflexivity.
Qed.

Lemma reportsMem_app l1 l2 : reportsMem (l1 ++ l2) = reportsMem l1 || reportsMem l2.
Proof. apply existsb_app. Qed.

Lemma dispatch_keeps_benchmem s fields w s' w' :
  head fields <> Some "set" ->
  Line.dispatch s fields w = Continue (s', w') ->
  Line.benchmem s' = Line.benchmem s.
Proof.
  intros Hns. unfold Line.dispatch, Line.cmdQuit.
  destruct fields as [|cmd args]; [intros [= <- _]; reflexivity|].
  repeat (match goal with
          | |- context [String.eqb cmd ?c] => destruct (String.eqb_spec cmd c)
          end; try discriminate; try (intros [= <- _]; reflexivity)).
  subst cmd. simpl in Hns. contradiction.
Qed.

Lemma serveLines_keeps_benchmem lines : forall s w s' w',
  Forall (fun fields => head fields <> Some "set") lines ->
  Line.serveLines s lines w = Continue (s', w') ->
  Line.benchmem s' = Line.benchmem s.
Proof.
  induction lines as [|fields lines IH]; intros s w s' w' Hall; simpl.
  - intros [= <- _]. reflexivity.
  - apply Forall_cons in Hall as [Hf Hall].
    destruct (Line.dispatch s fields w) as [[s1 w1]|code w1] eqn:Hd; [|discriminate].
    intros Hs. rewrite (IH _ _ _ _ Hall Hs).
    exact (dispatch_keeps_benchmem _ _ _ _ _ Hf Hd).
Qed.

Lemma cmdSet_wellformed s v rest b w :
  strconv.ParseBool v = (b, None) ->
  Line.cmdSet s ("benchmem" :: v :: rest) w
  = ({| Line.benchmarks := Line.benchmarks s; Line.benchmem := b |}, w).
Proof. intros H. unfold Line.cmdSet. simpl. rewrite H. reflexivity. Qed.

(** C7. The report of a run that did not fail includes the memory
    statistics exactly when [benchmem] is set or the benchmark asked for
    them.  After [set benchmem v], and until another [set] command, every
    run that does not fail includes them when [v] is true and includes
    them only at the request of the benchmark when [v] is false, which is
    also the setting of a new server. *)
Theorem memory_statistics_reported :
  (forall s args bench procs iters w,
      Line.checkRun s args = inl (bench, procs, iters) ->
      let r := fst (lineRun bench procs iters w) in
      Line.Failed r = false ->
      reportsMem (emitted w (Line.cmdRun s args w))
      = Line.benchmem s || Line.ShowAllocResult r) /\
  (forall s v b lines w s' w' args bench procs iters,
      strconv.ParseBool v = (b, None) ->
      Forall (fun fields => head fields <> Some "set") lines ->
      Line.serveLines s (["set"; "benchmem"; v] :: lines) w = Continue (s', w') ->
      Line.checkRun s' args = inl (bench, procs, iters) ->
      let r := fst (lineRun bench procs iters w') in
      Line.Failed r = false ->
      reportsMem (emitted w' (Line.cmdRun s' args w')) = b || Line.ShowAllocResult r) /\
  (forall bs, Line.benchmem (Line.newServer bs) = false).
Proof.
  assert (forall s args bench procs iters w,
      Line.checkRun s args = inl (bench, procs, iters) ->
      Line.Failed (fst (lineRun bench procs iters w)) = false ->
      reportsMem (emitted w (Line.cmdRun s args w))
      = Line.benchmem s || Line.ShowAllocResult (fst (lineRun bench procs iters w)))
    as Hone.
  { intros s args bench procs iters w Hc Hf.
    rewrite (cmdRun_accepted _ _ _ _ _ _ Hc).
    rewrite (emitted_app w _ _ (doRun_out s bench procs iters w)).
    cbv zeta. rewrite Hf.
    change (reportsMem (nameLine ?n :: ?l)) with (reportsMem l).
    rewrite reportsMem_app, reportsMem_resultLines.
    destruct (negb _); simpl; rewrite orb_false_r; reflexivity. }
  split; [|split].
  - intros s args bench procs iters w Hc r Hf. apply Hone; assumption.
  - intros s v b lines w s' w' args bench procs iters Hv Hall Hs Hc r Hf.
    subst r. rewrite (Hone _ _ _ _ _ _ Hc Hf). f_equal.
    change (Line.serveLines s (["set"; "benchmem"; v] :: lines) w)
      with (let '(s1, w1) := Line.cmdSet s ["benchmem"; v] w in
            Line.serveLines s1 lines w1) in Hs.
    rewrite (cmdSet_wellformed _ _ _ _ _ Hv) in Hs.
    rewrite (serveLines_keeps_benchmem _ _ _ _ _ Hall Hs). reflexivity.
  - reflexivity.
Qed.

(** A new server, then [set benchmem true] followed by [list]; a
    benchmark that asks for the statistics itself. *)
Lemma memory_statistics_reported_witness :
  let foo := Sample.bench "Foo" Sample.quiet in
  let baz := Sample.bench "Baz" Sample.reporting in
  let s := Line.newServer [foo; baz] in
  let s' := {| Line.benchmarks := [foo; baz]; Line.benchmem := true |} in
  let w' := Line.cmdList s' Sample.w0 in
  reportsMem (emitted Sample.w0 (Line.cmdRun s ["Foo"; "10"] Sample.w0)) = false /\
  reportsMem (emitted Sample.w0 (Line.cmdRun s ["Baz"; "10"] Sample.w0)) = true /\
  reportsMem (emitted w' (Line.cmdRun s' ["Foo"; "10"] w')) = true.
Proof.
  intros foo baz s s' w'. split; [|split].
  - rewrite (proj1 memory_statistics_reported s ["Foo"; "10"] foo 1 10 Sample.w0);
      reflexivity.
  - rewrite (proj1 memory_statistics_reported s ["Baz"; "10"] baz 1 10 Sample.w0);
      reflexivity.
  - rewrite (proj1 (proj2 memory_statistics_reported) s "true" true [["list"]]
               Sample.w0 s' w' ["Foo"; "10"] foo 1 10);
      [reflexivity | reflexivity | | reflexivity | reflexivity | reflexivity].
    repeat constructor. simpl. discriminate.
Defined.

(** ** Display names *)

(** C8. The display name is the bare name for parallelism 1 and the name
    followed by '-' and the degree otherwise, and it is the first thing an
    accepted [run] command prints.  On a server where [Foo] is registered,
    [run Foo-3 10] prints [Foo-3] and starts the body with the degree set
    to 3; [run Foo 10] prints [Foo] and starts it with the degree set to
    1. *)
Theorem display_name_and_parallelism :
  (forall name p,
      Line.benchmarkName name p
      = if bool_decide (p = 1) then name else name +:+ "-" +:+ strconv.Itoa p) /\
  (forall s args bench procs iters w,
      Line.checkRun s args = inl (bench, procs, iters) ->
      head (emitted w (Line.cmdRun s args w))
      = Some (nameLine (Line.benchmarkName (testing.Name bench) procs))) /\
  (forall s w,
      "Foo" ∈ names (Line.benchmarks s) ->
      let w3 := Line.cmdRun s ["Foo-3"; "10"] w in
      let w1 := Line.cmdRun s ["Foo"; "10"] w in
      head (emitted w w3) = Some (nameLine "Foo-3") /\
      calls w3 = calls w ++ [{| callName := "Foo"; callN := 10; callProcs := 3 |}] /\
      head (emitted w w1) = Some (nameLine "Foo") /\
      calls w1 = calls w ++ [{| callName := "Foo"; callN := 10; callProcs := 1 |}]).
Proof.
  assert (forall s args bench procs iters w,
      Line.checkRun s args = inl (bench, procs, iters) ->
      head (emitted w (Line.cmdRun s args w))
      = Some (nameLine (Line.benchmarkName (testing.Name bench) procs))) as Hhead.
  { intros s args bench procs iters w Hc.
    rewrite (cmdRun_accepted _ _ _ _ _ _ Hc).
    rewrite (emitted_app w _ _ (doRun_out s bench procs iters w)). reflexivity. }
  split; [|split].
  - intros name p. unfold Line.benchmarkName.
    case_bool_decide as E.
    + rewrite E. reflexivity.
    + apply Z.eqb_neq in E. rewrite E. reflexivity.
  - exact Hhead.
  - intros s w Hin w3 w1.
    destruct (findBenchmark_present _ _ Line.zeroBenchmark Hin) as [_ Hname].
    assert (Line.checkRun s ["Foo-3"; "10"]
            = inl (Line.findBenchmark (Line.benchmarks s) "Foo" Line.zeroBenchmark, 3, 10))
      as H3 by (apply checkRun_accepts; (reflexivity || assumption || discriminate)).
    assert (Line.checkRun s ["Foo"; "10"]
            = inl (Line.findBenchmark (Line.benchmarks s) "Foo" Line.zeroBenchmark, 1, 10))
      as H1 by (apply checkRun_accepts; (reflexivity || assumption || discriminate)).
    subst w3 w1. rewrite (Hhead _ _ _ _ _ w H3), (Hhead _ _ _ _ _ w H1).
    rewrite (cmdRun_accepted _ _ _ _ _ _ H3), (cmdRun_accepted _ _ _ _ _ _ H1).
    rewrite !doRun_calls, Hname. repeat split.
Qed.

(** [Foo] registered next to another benchmark. *)
Lemma display_name_and_parallelism_witness :
  let s := Line.newServer [Sample.bench "Bar" Sample.leaky; Sample.bench "Foo" Sample.quiet] in
  head (out (Line.cmdRun s ["Foo-3"; "10"] Sample.w0)) = Some (nameLine "Foo-3") /\
  calls (Line.cmdRun s ["Foo-3"; "10"] Sample.w0)
  = [{| callName := "Foo"; callN := 10; callProcs := 3 |}] /\
  head (out (Line.cmdRun s ["Foo"; "10"] Sample.w0)) = Some (nameLine "Foo") /\
  calls (Line.cmdRun s ["Foo"; "10"] Sample.w0)
  = [{| callName := "Foo"; callN := 10; callProcs := 1 |}].
Proof.
  intros s.
  apply (proj2 (proj2 display_name_and_parallelism) s Sample.w0).
  apply (bool_decide_unpack _). vm_compute. exact I.
Defined.

(** ** The [set] command *)

(** C9, as amended. A [set] command with fewer than two arguments, with a
    first argument other than [benchmem], or with a second argument that
    is no boolean writes an error on the error stream and leaves the
    server as it was.  A command whose first two arguments are [benchmem]
    and a boolean sets [benchmem] to it, changes nothing else and writes
    nothing, whatever arguments follow. *)
Theorem set_updates_only_when_wellformed :
  (forall s args w,
      match args with
      | a0 :: a1 :: _ => a0 <> "benchmem" \/ (strconv.ParseBool a1).2 <> None
      | _ => True
      end ->
      exists msg, msg <> [] /\
        Line.cmdSet s args w = (s, write Stderr msg w)) /\
  (forall s v rest b w,
      strconv.ParseBool v = (b, None) ->
      Line.cmdSet s ("benchmem" :: v :: rest) w
      = ({| Line.benchmarks := Line.benchmarks s; Line.benchmem := b |}, w)).
Proof.
  split.
  - intros s args w H. unfold Line.cmdSet.
    destruct args as [|a0 [|a1 rest]];
      [eexists; split; [|reflexivity]; discriminate ..|].
    destruct (String.eqb_spec a0 "benchmem") as [E|Hne]; simpl;
      [|eexists; split; [|reflexivity]; discriminate].
    destruct H as [H|H]; [contradiction|].
    destruct (strconv.ParseBool a1) as [b [err|]]; [|contradiction].
    eexists; split; [|reflexivity]. discriminate.
  - intros s v rest b w H. apply cmdSet_wellformed. exact H.
Qed.

(** A wrong option, a missing value, a malformed value; a proper command. *)
Lemma set_updates_only_when_wellformed_witness :
  let s := Line.newServer [Sample.bench "Foo" Sample.quiet] in
  (forall args,
      args ∈ [["verbose"; "true"]; ["benchmem"]; ["benchmem"; "yes"]] ->
      exists msg, msg <> [] /\
        Line.cmdSet s args Sample.w0 = (s, write Stderr msg Sample.w0)) /\
  Line.cmdSet s ["benchmem"; "T"] Sample.w0
  = ({| Line.benchmarks := Line.benchmarks s; Line.benchmem := true |}, Sample.w0).
Proof.
  intros s. split.
  - intros args Hargs.
    apply (proj1 set_updates_only_when_wellformed s args Sample.w0).
    repeat (apply elem_of_cons in Hargs; destruct Hargs as [->|Hargs]);
      [| | |apply elem_of_nil in Hargs; contradiction].
    + left. discriminate.
    + exact I.
    + right. vm_compute. discriminate.
  - apply (proj2 set_updates_only_when_wellformed). reflexivity.
Defined.

(** [set benchmem true junk] is no [set benchmem <bool>], yet it turns
    [benchmem] on and writes no error. *)
Lemma set_ignores_extra_arguments :
  Line.cmdSet (Line.newServer []) ["benchmem"; "true"; "junk"] Sample.w0
  = ({| Line.benchmarks := []; Line.benchmem := true |}, Sample.w0).
Proof. reflexivity. Qed.

(** ** The name argument of [run] *)

Section Dash.

Implicit Types (pre suf s : string) (c : ascii).

Lemma IndexByte_lower s c : -1 <= strings.IndexByte s c.
Proof.
  induction s as [|a s IH]; simpl; [lia|].
  destruct (Ascii.eqb a c); [lia|].
  destruct (Z.eqb_spec (strings.IndexByte s c) (-1)); lia.
Qed.

Lemma IndexByte_cons_absent a s c :
  strings.IndexByte (String a s) c = -1 -> a <> c /\ strings.IndexByte s c = -1.
Proof.
  simpl. destruct (Ascii.eqb_spec a c) as [E|Hne]; [discriminate|].
  pose proof (IndexByte_lower s c).
  destruct (Z.eqb_spec (strings.IndexByte s c) (-1)); [tauto | lia].
Qed.

Lemma IndexByte_app pre c suf :
  strings.IndexByte pre c = -1 ->
  strings.IndexByte (pre +:+ String c suf) c = Z.of_nat (String.length pre).
Proof.
  induction pre as [|a pre IH]; intros H.
  - simpl. rewrite Ascii.eqb_refl. reflexivity.
  - apply IndexByte_cons_absent in H as [Hne H].
    change (String a pre +:+ String c suf) with (String a (pre +:+ String c suf)).
    cbn [strings.IndexByte]. apply Ascii.eqb_neq in Hne. rewrite Hne, (IH H).
    destruct (Z.eqb_spec (Z.of_nat (String.length pre)) (-1)); [lia|].
    cbn [String.length]. lia.
Qed.

(** A string that holds [c] is a prefix free of [c], then [c], then a rest. *)
Lemma IndexByte_split s c :
  strings.IndexByte s c <> -1 ->
  exists pre suf, s = pre +:+ String c suf /\ strings.IndexByte pre c = -1.
Proof.
  induction s as [|a s IH]; simpl; [contradiction|].
  destruct (Ascii.eqb_spec a c) as [->|Hne].
  - intros _. exists "", s. split; reflexivity.
  - destruct (Z.eqb_spec (strings.IndexByte s c) (-1)) as [E|Hi]; [contradiction|].
    intros _. destruct (IH Hi) as (pre & suf & -> & Hpre).
    exists (String a pre), suf. split; [reflexivity|].
    simpl. apply Ascii.eqb_neq in Hne. rewrite Hne, Hpre. reflexivity.
Qed.

Lemma length_append pre suf :
  String.length (pre +:+ suf) = (String.length pre + String.length suf)%nat.
Proof. induction pre as [|a pre IH]; simpl; [reflexivity | rewrite IH; reflexivity]. Qed.

Lemma substring_all s : substring 0 (String.length s) s = s.
Proof. induction s as [|a s IH]; simpl; [reflexivity | rewrite IH; reflexivity]. Qed.

Lemma substring_prefix pre suf : substring 0 (String.length pre) (pre +:+ suf) = pre.
Proof.
  induction pre as [|a pre IH]; simpl; [destruct suf; reflexivity|].
  rewrite IH. reflexivity.
Qed.

Lemma substring_skip pre suf n :
  substring (String.length pre) n (pre +:+ suf) = substring 0 n suf.
Proof. induction pre as [|a pre IH]; simpl; [reflexivity | exact IH]. Qed.

Lemma slice_to_prefix pre suf :
  strings.slice_to (pre +:+ suf) (Z.of_nat (String.length pre)) = pre.
Proof. unfold strings.slice_to. rewrite Nat2Z.id. apply substring_prefix. Qed.

Lemma append_char_assoc pre c suf :
  (pre +:+ String c "") +:+ suf = pre +:+ String c suf.
Proof.
  induction pre as [|a pre IH]; [reflexivity|].
  change (String a ((pre +:+ String c "") +:+ suf) = String a (pre +:+ String c suf)).
  rewrite IH. reflexivity.
Qed.

Lemma slice_from_suffix pre c suf :
  strings.slice_from (pre +:+ String c suf) (Z.of_nat (String.length pre) + 1) = suf.
Proof.
  unfold strings.slice_from. rewrite <- (append_char_assoc pre c suf).
  replace (Z.to_nat (Z.of_nat (String.length pre) + 1))
    with (String.length (pre +:+ String c "")) by (rewrite length_append; simpl; lia).
  rewrite substring_skip, (length_append (pre +:+ String c "") suf).
  replace (String.length (pre +:+ String c "") + String.length suf
           - String.length (pre +:+ String c ""))%nat
    with (String.length suf) by lia.
  apply substring_all.
Qed.

Lemma splitName_plain arg :
  strings.IndexByte arg "-" = -1 -> Line.splitName arg = inl (arg, 1).
Proof. intros H. unfold Line.splitName. rewrite H. reflexivity. Qed.

Lemma splitName_dash pre suf :
  strings.IndexByte pre "-" = -1 ->
  Line.splitName (pre +:+ "-" +:+ suf)
  = match strconv.Atoi suf with
    | (_, Some err) => inr err
    | (procs, None) => inl (pre, procs)
    end.
Proof.
  intros H. unfold Line.splitName.
  change ("-" +:+ suf) with (String "-" suf).
  rewrite (IndexByte_app _ _ suf H).
  destruct (Z.eqb_spec (Z.of_nat (String.length pre)) (-1)); [lia|]. simpl negb. cbv iota.
  rewrite slice_from_suffix, slice_to_prefix. reflexivity.
Qed.

Lemma requestedName_no_dash arg : strings.IndexByte (requestedName arg) "-" = -1.
Proof.
  unfold requestedName.
  destruct (Z.eqb_spec (strings.IndexByte arg "-") (-1)) as [E|Hne]; [exact E|].
  destruct (IndexByte_split _ _ Hne) as (pre & suf & -> & Hpre).
  rewrite (IndexByte_app _ _ suf Hpre), slice_to_prefix. exact Hpre.
Qed.

End Dash.

Lemma checkRun_no_dash s args bench procs iters :
  Line.checkRun s args = inl (bench, procs, iters) ->
  strings.IndexByte (testing.Name bench) "-" = -1.
Proof.
  unfold Line.checkRun. destruct args as [|a0 [|a1 rest]]; [discriminate ..|].
  destruct (Line.splitName a0) as [[name p]|err] eqn:Hs; [|discriminate].
  apply splitName_name in Hs. subst name.
  destruct (findBenchmark_cases (Line.benchmarks s) (requestedName a0) Line.zeroBenchmark)
    as [E|[_ E]].
  - rewrite E. simpl. discriminate.
  - destruct (String.eqb _ ""); [discriminate|].
    destruct (strconv.Atoi a1) as [n err].
    destruct (bool_decide (is_Some err) || (n <=? 0)); [discriminate|].
    intros [= <- _ _]. rewrite E. apply requestedName_no_dash.
Qed.

(** C10. The first argument of [run] is cut at its first '-': without one
    it is the name and the degree is 1; otherwise what precedes it is the
    name and what follows must be an integer for [strconv.Atoi], failing
    which [cmdRun] writes the bad-cpu error and does nothing else.  The
    benchmark an accepted command runs therefore never has a '-' in its
    name, and no command makes the server invoke one that has.  The
    degree after the '-' is taken as parsed, whatever its sign: [run
    Foo-0 10] runs [Foo] with the degree left as it was. *)
Theorem name_split_at_first_dash :
  (forall arg,
      strings.IndexByte arg "-" = -1 -> Line.splitName arg = inl (arg, 1)) /\
  (forall pre suf,
      strings.IndexByte pre "-" = -1 ->
      Line.splitName (pre +:+ "-" +:+ suf)
      = match strconv.Atoi suf with
        | (_, Some err) => inr err
        | (procs, None) => inl (pre, procs)
        end) /\
  (forall s pre suf a1 rest w n err,
      strings.IndexByte pre "-" = -1 ->
      strconv.Atoi suf = (n, Some err) ->
      Line.cmdRun s ((pre +:+ "-" +:+ suf) :: a1 :: rest) w
      = write Stderr [Lit "bad cpu value: "; ErrorOf err; Lit LF] w) /\
  (forall s args bench procs iters,
      Line.checkRun s args = inl (bench, procs, iters) ->
      strings.IndexByte (testing.Name bench) "-" = -1) /\
  (forall s args w c,
      c ∈ calls (Line.cmdRun s args w) ->
      c ∈ calls w \/ strings.IndexByte (callName c) "-" = -1) /\
  (forall s pre suf a1 rest procs iters,
      strings.IndexByte pre "-" = -1 ->
      pre ∈ names (Line.benchmarks s) ->
      pre <> "" ->
      strconv.Atoi suf = (procs, None) ->
      strconv.Atoi a1 = (iters, None) ->
      0 < iters ->
      Line.checkRun s ((pre +:+ "-" +:+ suf) :: a1 :: rest)
      = inl (Line.findBenchmark (Line.benchmarks s) pre Line.zeroBenchmark,
             procs, iters)) /\
  (forall s w,
      "Foo" ∈ names (Line.benchmarks s) ->
      calls (Line.cmdRun s ["Foo-0"; "10"] w)
      = calls w ++ [{| callName := "Foo"; callN := 10;
                       callProcs := runtime.gomaxprocs (rt w) |}]).
Proof.
  assert (forall s pre suf a1 rest procs iters,
      strings.IndexByte pre "-" = -1 ->
      pre ∈ names (Line.benchmarks s) ->
      pre <> "" ->
      strconv.Atoi suf = (procs, None) ->
      strconv.Atoi a1 = (iters, None) ->
      0 < iters ->
      Line.checkRun s ((pre +:+ "-" +:+ suf) :: a1 :: rest)
      = inl (Line.findBenchmark (Line.benchmarks s) pre Line.zeroBenchmark,
             procs, iters)) as Hsigned.
  { intros s pre suf a1 rest procs iters Hpre Hin Hne Hsuf Ha Hpos.
    apply checkRun_accepts; try assumption.
    rewrite (splitName_dash _ _ Hpre), Hsuf. reflexivity. }
  split; [exact splitName_plain|].
  split; [exact splitName_dash|].
  split; [|split; [exact checkRun_no_dash|split; [|split; [exact Hsigned|]]]].
  - intros s pre suf a1 rest w n err Hpre Hsuf.
    apply cmdRun_refused. unfold Line.checkRun.
    rewrite (splitName_dash _ _ Hpre), Hsuf. reflexivity.
  - intros s args w c Hc.
    destruct (Line.checkRun s args) as [[[bench procs] iters]|msg] eqn:Hr.
    + rewrite (cmdRun_accepted _ _ _ _ _ _ Hr), doRun_calls in Hc.
      apply elem_of_app in Hc as [Hc|Hc]; [left; exact Hc | right].
      apply list_elem_of_singleton in Hc. subst c. simpl.
      exact (checkRun_no_dash _ _ _ _ _ Hr).
    + rewrite (cmdRun_refused _ _ _ _ Hr) in Hc. left. exact Hc.
  - intros s w Hin.
    destruct (findBenchmark_present _ _ Line.zeroBenchmark Hin) as [_ Hname].
    rewrite (cmdRun_accepted s ["Foo-0"; "10"] _ 0 10 w
               (Hsigned s "Foo" "0" "10" [] 0 10 eq_refl Hin
                  ltac:(discriminate) eq_refl eq_refl eq_refl)).
    rewrite doRun_calls, Hname. reflexivity.
Qed.

(** A server holding [Foo] and a benchmark named [Foo-bar]: a malformed
    degree, the name with a dash, and the degrees 0 and -2. *)
Lemma name_split_at_first_dash_witness :
  let s := Line.newServer [Sample.bench "Foo" Sample.quiet;
                           Sample.bench "Foo-bar" Sample.leaky] in
  Line.splitName "Foo" = inl ("Foo", 1) /\
  Line.splitName "Foo-12-x" = inr (strconv.syntaxError "Atoi" "12-x") /\
  Line.cmdRun s ["Foo-bar"; "10"] Sample.w0
  = write Stderr [Lit "bad cpu value: ";
                  ErrorOf (strconv.syntaxError "Atoi" "bar"); Lit LF] Sample.w0 /\
  (forall args c, c ∈ calls (Line.cmdRun s args Sample.w0) -> callName c <> "Foo-bar") /\
  Line.checkRun s ["Foo--2"; "10"] = inl (Sample.bench "Foo" Sample.quiet, -2, 10) /\
  calls (Line.cmdRun s ["Foo-0"; "10"] Sample.w0)
  = [{| callName := "Foo"; callN := 10; callProcs := 4 |}].
Proof.
  intros s.
  destruct name_split_at_first_dash as (H1 & H2 & H3 & H4 & H5 & H6 & H7).
  split; [apply H1; reflexivity|].
  split; [apply (H2 "Foo" "12-x"); reflexivity|].
  split; [apply (H3 s "Foo" "bar" "10" [] Sample.w0 0); reflexivity|].
  split; [|split].
  - intros args c Hc E. destruct (H5 s args Sample.w0 c Hc) as [Hin|Hd].
    + apply elem_of_nil in Hin. exact Hin.
    + rewrite E in Hd. vm_compute in Hd. discriminate.
  - apply (H6 s "Foo" "-2" "10" [] (-2) 10);
      first [reflexivity | discriminate | (apply (bool_decide_unpack _); vm_compute; exact I)].
  - apply (H7 s Sample.w0). apply (bool_decide_unpack _). vm_compute. exact I.
Defined.

(** * Further properties of the code *)

(** ** The [list] command *)

(** X1. [list] prints the registered names in registration order, one
    per line and repeated names repeatedly, and then an empty line, all
    on the output stream; it runs nothing, leaves the runtime state alone
    and ignores its arguments. *)
Theorem list_prints_registered_names (s : Line.server) (args : list string) (w : World) :
  Line.dispatch s ("list" :: args) w
  = Continue (s, {| rt := rt w; calls := calls w;
                    out := out w ++ listLines (Line.benchmarks s)
                                 ++ [(Stdout, [Lit LF])] |}).
Proof.
  unfold Line.dispatch. simpl. unfold Line.cmdList.
  rewrite printNames_spec. unfold write. simpl. rewrite <- app_assoc. reflexivity.
Qed.

(** ** The serve loop *)

Lemma serveLines_app l1 : forall l2 s w,
  Line.serveLines s (l1 ++ l2) w
  = match Line.serveLines s l1 w with
    | Continue (s', w') => Line.serveLines s' l2 w'
    | Exit code w' => Exit code w'
    end.
Proof.
  induction l1 as [|fields l1 IH]; intros l2 s w; simpl; [reflexivity|].
  destruct (Line.dispatch s fields w) as [[s1 w1]|code w1]; [apply IH | reflexivity].
Qed.

(** X2. Once the loop reaches a [quit] or [exit] line the process exits
    with status 0 in the state the earlier lines left: the arguments of
    the command and every later line have no effect. *)
Theorem quit_stops_serving s pre q args post w s' w' :
  Line.serveLines s pre w = Continue (s', w') ->
  q = "quit" \/ q = "exit" ->
  Line.serveLines s (pre ++ (q :: args) :: post) w = Exit 0 w'.
Proof.
  intros Hpre Hq. rewrite serveLines_app, Hpre. simpl.
  destruct Hq as [-> | ->]; reflexivity.
Qed.

(** [list], then [exit now], then a [run] that is never reached. *)
Lemma quit_stops_serving_witness :
  let s := Line.newServer [Sample.bench "Foo" Sample.leaky] in
  Line.serveLines s [["list"]; ["exit"; "now"]; ["run"; "Foo"; "10"]] Sample.w0
  = Exit 0 {| rt := Sample.st0; calls := [];
              out := [(Stdout, [Lit ("Foo" +:+ LF)]); (Stdout, [Lit LF])] |}.
Proof.
  intros s.
  apply (quit_stops_serving s [["list"]] "exit" ["now"] [["run"; "Foo"; "10"]]
           Sample.w0 s); [reflexivity | right; reflexivity].
Defined.

(** X3. Lines that are empty or whose first field is none of [quit],
    [exit], [list], [run] and [set] (the match is exact, so [help] and any
    other word, whatever its case) each write the help text once on the
    error stream; the server, the runtime state and the bodies invoked
    stay as they were and the loop goes on. *)
Theorem other_lines_print_help lines : forall s w,
  Forall (fun fields =>
            forall cmd, cmd ∈ ["quit"; "exit"; "list"; "run"; "set"] ->
                        head fields <> Some cmd) lines ->
  Line.serveLines s lines w
  = Continue (s, {| rt := rt w; calls := calls w;
                    out := out w ++ replicate (List.length lines) helpLine |}).
Proof.
  induction lines as [|fields lines IH]; intros s w Hall; simpl.
  - rewrite app_nil_r. destruct w; reflexivity.
  - apply Forall_cons in Hall as [Hf Hall].
    assert (Line.dispatch s fields w = Continue (s, Line.cmdHelp w)) as ->.
    { unfold Line.dispatch. destruct fields as [|cmd args]; [reflexivity|].
      destruct (String.eqb cmd "help"); [reflexivity|].
      repeat (match goal with
              | |- context [String.eqb cmd ?c] =>
                  destruct (String.eqb_spec cmd c) as [E|_];
                  [exfalso; apply (Hf c); [set_solver | rewrite E; reflexivity]|]
              end).
      reflexivity. }
    rewrite (IH _ _ Hall). simpl. rewrite <- app_assoc. reflexivity.
Qed.

(** An empty line, [help], a command in upper case and an unknown word. *)
Lemma other_lines_print_help_witness :
  let s := Line.newServer [Sample.bench "Foo" Sample.leaky] in
  Line.serveLines s [[]; ["help"]; ["RUN"; "Foo"; "10"]; ["bogus"]] Sample.w0
  = Continue (s, {| rt := Sample.st0; calls := [];
                    out := [helpLine; helpLine; helpLine; helpLine] |}).
Proof.
  intros s.
  apply (other_lines_print_help [[]; ["help"]; ["RUN"; "Foo"; "10"]; ["bogus"]]
           s Sample.w0).
  repeat (apply Forall_cons; split; [intros cmd Hcmd E; revert Hcmd;
    repeat (rewrite elem_of_cons; intros [->|Hcmd]; [discriminate|revert Hcmd]);
    apply not_elem_of_nil|]).
  apply Forall_nil. exact I.
Defined.

Lemma cmdRun_grows s args w :
  exists cs evs,
    calls (Line.cmdRun s args w) = calls w ++ cs /\
    out (Line.cmdRun s args w) = out w ++ evs /\
    (List.length cs <= 1)%nat.
Proof.
  destruct (Line.checkRun s args) as [[[bench procs] iters]|msg] eqn:Hc.
  - rewrite (cmdRun_accepted _ _ _ _ _ _ Hc).
    eexists _, _. split; [apply doRun_calls|]. split; [apply doRun_out|]. simpl. lia.
  - rewrite (cmdRun_refused _ _ _ _ Hc).
    exists [], [(Stderr, msg)]. split; [symmetry; apply app_nil_r|].
    split; [reflexivity | simpl; lia].
Qed.

Lemma cmdSet_grows s args w :
  Line.benchmarks (Line.cmdSet s args w).1 = Line.benchmarks s /\
  calls (Line.cmdSet s args w).2 = calls w /\
  exists evs, out (Line.cmdSet s args w).2 = out w ++ evs.
Proof.
  unfold Line.cmdSet.
  destruct args as [|a0 [|a1 rest]];
    [repeat split; eexists; reflexivity ..|].
  destruct (negb (String.eqb a0 "benchmem")); [repeat split; eexists; reflexivity|].
  destruct (strconv.ParseBool a1) as [b [err|]]; simpl;
    [repeat split; eexists; reflexivity|].
  repeat split. exists []. symmetry. apply app_nil_r.
Qed.

Ltac quiet_branch evs :=
  exists (@nil call), evs;
  split; [rewrite app_nil_r; reflexivity|];
  split; [first [reflexivity
                | cbn [worldOf]; rewrite app_nil_r; reflexivity
                | simpl; rewrite <- app_assoc; reflexivity]|];
  split; [destruct (isCommand _ _); simpl; lia|];
  try discriminate; try (intros ? ? [= <- _]; reflexivity).

Lemma dispatch_grows s fields w :
  let o := Line.dispatch s fields w in
  exists cs evs,
    calls (worldOf o) = calls w ++ cs /\
    out (worldOf o) = out w ++ evs /\
    (List.length cs <= if isCommand "run" fields then 1 else 0)%nat /\
    forall s' w', o = Continue (s', w') -> Line.benchmarks s' = Line.benchmarks s.
Proof.
  cbv zeta. unfold Line.dispatch, Line.cmdQuit.
  destruct fields as [|cmd args]; [quiet_branch [helpLine]|].
  destruct (String.eqb_spec cmd "help"); [quiet_branch [helpLine]|].
  destruct (String.eqb_spec cmd "quit"); [quiet_branch (@nil event)|].
  destruct (String.eqb_spec cmd "exit"); [quiet_branch (@nil event)|].
  destruct (String.eqb_spec cmd "list").
  { cbn [worldOf]. unfold Line.cmdList. rewrite printNames_spec.
    quiet_branch (listLines (Line.benchmarks s) ++ [(Stdout, [Lit LF])]). }
  destruct (String.eqb_spec cmd "run") as [->|].
  { destruct (cmdRun_grows s args w) as (cs & evs & Hc & He & Hl).
    exists cs, evs. cbn [worldOf]. unfold isCommand. simpl head.
    rewrite bool_decide_true by reflexivity.
    repeat split; try assumption. intros ? ? [= <- _]. reflexivity. }
  destruct (String.eqb_spec cmd "set").
  { destruct (cmdSet_grows s args w) as (Hb & Hc & [evs He]).
    destruct (Line.cmdSet s args w) as [s1 w1]. cbn [worldOf fst snd] in *.
    exists [], evs. split; [rewrite app_nil_r; exact Hc|]. split; [exact He|].
    split; [destruct (isCommand _ _); simpl; lia|].
    intros ? ? [= <- _]. exact Hb. }
  quiet_branch [helpLine].
Qed.

(** X4. Whatever the input, the serve loop only appends to what was
    written and to the bodies invoked, it invokes at most one body per
    [run] line, and the server it goes on with holds the same benchmarks
    in the same order: no command registers, removes or reorders a
    benchmark. *)
Theorem serve_loop_invariant lines : forall s w,
  let o := Line.serveLines s lines w in
  calls w `prefix_of` calls (worldOf o) /\
  out w `prefix_of` out (worldOf o) /\
  (List.length (calls (worldOf o))
   <= List.length (calls w) + List.length (List.filter (isCommand "run") lines))%nat /\
  forall s' w', o = Continue (s', w') -> Line.benchmarks s' = Line.benchmarks s.
Proof.
  induction lines as [|fields lines IH]; intros s w; simpl.
  - repeat split; [reflexivity | reflexivity | lia | intros ? ? [= <- _]; reflexivity].
  - destruct (dispatch_grows s fields w) as (cs & evs & Hc & He & Hl & Hb).
    destruct (Line.dispatch s fields w) as [[s1 w1]|code w1]; simpl in *.
    + destruct (IH s1 w1) as (Pc & Po & Pl & Pb).
      split; [|split; [|split]].
      * etransitivity; [|exact Pc]. rewrite Hc. apply prefix_app_r. reflexivity.
      * etransitivity; [|exact Po]. rewrite He. apply prefix_app_r. reflexivity.
      * rewrite Hc, length_app in Pl.
        destruct (isCommand "run" fields); simpl; lia.
      * intros s' w' Hs. rewrite (Pb _ _ Hs). apply (Hb s1 w1). reflexivity.
    + split; [|split; [|split]].
      * rewrite Hc. apply prefix_app_r. reflexivity.
      * rewrite He. apply prefix_app_r. reflexivity.
      * rewrite Hc, length_app. destruct (isCommand "run" fields); simpl; lia.
      * discriminate.
Qed.

(** Two runs, a [set] and a [quit]: at most two bodies were invoked. *)
Lemma serve_loop_invariant_witness :
  let s := Line.newServer [Sample.bench "Foo" Sample.leaky] in
  let o := Line.serveLines s [["run"; "Foo"; "10"]; ["set"; "benchmem"; "true"];
                              ["run"; "Bar"; "10"]; ["quit"]] Sample.w0 in
  (List.length (calls (worldOf o)) <= 2)%nat.
Proof.
  intros s o.
  exact (proj1 (proj2 (proj2
    (serve_loop_invariant [["run"; "Foo"; "10"]; ["set"; "benchmem"; "true"];
                           ["run"; "Bar"; "10"]; ["quit"]] s Sample.w0)))).
Defined.

Lemma checkRun_benchmarks s s' args :
  Line.benchmarks s = Line.benchmarks s' ->
  Line.checkRun s args = Line.checkRun s' args.
Proof. intros H. unfold Line.checkRun. rewrite H. reflexivity. Qed.

Lemma cmdSet_rt s args w : rt (Line.cmdSet s args w).2 = rt w.
Proof.
  unfold Line.cmdSet. destruct args as [|a0 [|a1 rest]]; [reflexivity ..|].
  destruct (negb (String.eqb a0 "benchmem")); [reflexivity|].
  destruct (strconv.ParseBool a1) as [b [err|]]; reflexivity.
Qed.

Lemma dispatch_runs_nothing bs s fields w :
  Line.benchmarks s = bs ->
  (forall args, fields = "run" :: args ->
                exists msg, Line.checkRun (Line.newServer bs) args = inr msg) ->
  if isQuit fields then Line.dispatch s fields w = Exit 0 w
  else exists s' w',
      Line.dispatch s fields w = Continue (s', w') /\
      Line.benchmarks s' = bs /\ calls w' = calls w /\ rt w' = rt w /\
      exists evs, out w' = out w ++ evs.
Proof.
  intros Hbs Hrun. unfold Line.dispatch, Line.cmdQuit, isQuit.
  destruct fields as [|cmd args].
  { exists s, (Line.cmdHelp w). repeat split; [exact Hbs | eexists; reflexivity]. }
  destruct (String.eqb_spec cmd "help") as [->|_].
  { exists s, (Line.cmdHelp w). repeat split; [exact Hbs | eexists; reflexivity]. }
  destruct (String.eqb_spec cmd "quit") as [->|_]; [reflexivity|].
  destruct (String.eqb_spec cmd "exit") as [->|_]; [reflexivity|].
  cbn [orb].
  destruct (String.eqb_spec cmd "list") as [->|_].
  { exists s, (Line.cmdList s w). unfold Line.cmdList. rewrite printNames_spec.
    repeat split; [exact Hbs|]. simpl. rewrite <- app_assoc. eexists. reflexivity. }
  destruct (String.eqb_spec cmd "run") as [->|_].
  { destruct (Hrun args eq_refl) as [msg Hmsg].
    rewrite (checkRun_benchmarks (Line.newServer bs) s) in Hmsg
      by (symmetry; exact Hbs).
    exists s, (Line.cmdRun s args w). rewrite (cmdRun_refused _ _ _ _ Hmsg).
    repeat split; [exact Hbs | eexists; reflexivity]. }
  destruct (String.eqb_spec cmd "set") as [->|_].
  { destruct (cmdSet_grows s args w) as (Hb & Hc & He).
    pose proof (cmdSet_rt s args w) as Hr.
    destruct (Line.cmdSet s args w) as [s1 w1]. simpl in *.
    exists s1, w1. repeat split; try assumption. congruence. }
  exists s, (Line.cmdHelp w). repeat split; [exact Hbs | eexists; reflexivity].
Qed.

Lemma serveLines_runs_nothing bs lines : forall s w,
  Line.benchmarks s = bs ->
  runsNothing bs lines ->
  exists w',
    calls w' = calls w /\ rt w' = rt w /\ (exists evs, out w' = out w ++ evs) /\
    if stops lines then Line.serveLines s lines w = Exit 0 w'
    else exists s', Line.serveLines s lines w = Continue (s', w').
Proof.
  induction lines as [|fields lines IH]; intros s w Hbs Hall.
  - exists w. repeat split; [exists []; symmetry; apply app_nil_r|].
    exists s. reflexivity.
  - apply Forall_cons in Hall as [Hf Hall].
    pose proof (dispatch_runs_nothing bs s fields w Hbs Hf) as Hd.
    cbn [stops existsb Line.serveLines]. destruct (isQuit fields).
    + rewrite Hd. exists w. repeat split. exists []. symmetry. apply app_nil_r.
    + destruct Hd as (s1 & w1 & -> & Hb1 & Hc1 & Hr1 & evs1 & Ho1).
      destruct (IH s1 w1 Hb1 Hall) as (w' & Hc & Hr & [evs Ho] & Hs).
      exists w'. split; [congruence|]. split; [congruence|].
      split; [exists (evs1 ++ evs); rewrite Ho, Ho1, app_assoc; reflexivity|].
      exact Hs.
Qed.

(** X5. Without the flag [Serve] returns at once and leaves the process
    untouched.  With the flag, on an input none of whose [run] commands
    is accepted, it never returns and invokes nothing: the process exits
    with status 0 if the input holds a [quit] or [exit] line or ends
    without a read error, and otherwise with status 2 after printing the
    read error on the output stream. *)
Theorem Serve_exit_status bs input w :
  runsNothing bs (Line.records input) ->
  Line.Serve false bs input w = Continue w /\
  exists w',
    Line.Serve true bs input w
    = Exit (match Line.readErr input with
            | Some _ => if stops (Line.records input) then 0 else 2
            | None => 0
            end) w' /\
    calls w' = calls w /\
    rt w' = rt w /\
    (forall err,
        Line.readErr input = Some err -> stops (Line.records input) = false ->
        exists evs, out w' = out w ++ evs ++ [(Stdout, [Lit (err +:+ LF)])]).
Proof.
  intros Hall. split; [reflexivity|]. unfold Line.Serve, Line.serve. cbn [negb].
  destruct (serveLines_runs_nothing bs (Line.records input) (Line.newServer bs) w
              eq_refl Hall) as (w' & Hc & Hr & [evs Ho] & Hs).
  destruct (stops (Line.records input)).
  - rewrite Hs. exists w'. split; [destruct (Line.readErr input); reflexivity|].
    repeat split; try assumption. intros err _ [=].
  - destruct Hs as [s' ->]. destruct (Line.readErr input) as [err|].
    + eexists. split; [reflexivity|]. repeat split; try assumption.
      intros err' [= <-] _. exists evs. simpl. rewrite Ho, <- app_assoc. reflexivity.
    + exists w'. split; [reflexivity|]. repeat split; try assumption.
      intros err [=].
Qed.

(** A refused [run] and a [list], ending with a read error; the same
    lines followed by [quit]. *)
Lemma Serve_exit_status_witness :
  let bs := [Sample.bench "Foo" Sample.quiet] in
  let lines := [["run"; "Bar"; "10"]; ["list"]] in
  (exists w', Line.Serve true bs
                {| Line.records := lines; Line.readErr := Some "unexpected EOF" |}
                Sample.w0 = Exit 2 w' /\ calls w' = []) /\
  (exists w', Line.Serve true bs
                {| Line.records := lines ++ [["quit"]]; Line.readErr := None |}
                Sample.w0 = Exit 0 w' /\ calls w' = []).
Proof.
  intros bs lines.
  split.
  - destruct (proj2 (Serve_exit_status bs
                       {| Line.records := lines; Line.readErr := Some "unexpected EOF" |}
                       Sample.w0
                       ltac:(repeat (apply Forall_cons; split;
                                     [intros args [= <-]; eexists; reflexivity
                                     || (intros args [=]) |]);
                             apply Forall_nil; exact I)))
      as (w' & Hs & Hc & _).
    exists w'. split; [exact Hs | exact Hc].
  - destruct (proj2 (Serve_exit_status bs
                       {| Line.records := lines ++ [["quit"]]; Line.readErr := None |}
                       Sample.w0
                       ltac:(repeat (apply Forall_cons; split;
                                     [intros args [= <-]; eexists; reflexivity
                                     || (intros args [=]) |]);
                             apply Forall_nil; exact I)))
      as (w' & Hs & Hc & _).
    exists w'. split; [exact Hs | exact Hc].
Defined.

(** ** The RPC registry *)

Lemma register_entries bs : forall m m',
  Rpc.register bs m = inr m' ->
  map_to_list m' ≡ₚ map_to_list m ++ ((fun b => (testing.Name b, b)) <$> bs).
Proof.
  induction bs as [|x bs IH]; intros m m' Hr; simpl in *.
  - injection Hr as <-. rewrite app_nil_r. reflexivity.
  - destruct (m !! testing.Name x) eqn:Hx; [discriminate|].
    rewrite (IH _ _ Hr), (map_to_list_insert _ _ _ Hx).
    simpl. apply Permutation_middle.
Qed.

Lemma newServer_entries bs s :
  Rpc.newServer bs = inr s ->
  map_to_list (Rpc.m s) ≡ₚ (fun b => (testing.Name b, b)) <$> bs.
Proof.
  unfold Rpc.newServer. destruct (Rpc.register bs ∅) as [msg|m'] eqn:Hr; [discriminate|].
  intros [= <-]. simpl. rewrite (register_entries _ _ _ Hr), map_to_list_empty.
  reflexivity.
Qed.

(** X6. In a server that [newServer] returned, a name is bound exactly
    to the entry of the sequence that carries it: every entry can be
    looked up under its own name, whatever that name is, and nothing else
    can. *)
Theorem registry_holds_the_entries bs s :
  Rpc.newServer bs = inr s ->
  forall name b,
    Rpc.m s !! name = Some b <-> b ∈ bs /\ testing.Name b = name.
Proof.
  intros Hs name b.
  rewrite <- elem_of_map_to_list, (newServer_entries _ _ Hs), list_elem_of_fmap.
  split.
  - intros (b' & [= -> ->] & Hb). split; [exact Hb | reflexivity].
  - intros [Hb <-]. exists b. split; [reflexivity | exact Hb].
Qed.

(** Names with a dash and the empty name are bound like any other. *)
Lemma registry_holds_the_entries_witness :
  let foobar := Sample.bench "Foo-bar" Sample.quiet in
  let anon := Sample.bench "" Sample.leaky in
  let s := {| Rpc.m := <["" := anon]> (<["Foo-bar" := foobar]> ∅);
              Rpc.opt := {| Rpc.Benchmem := false |} |} in
  Rpc.m s !! "Foo-bar" = Some foobar /\ Rpc.m s !! "" = Some anon.
Proof.
  intros foobar anon s.
  assert (Rpc.newServer [foobar; anon] = inr s) as Hs by reflexivity.
  split.
  - apply (registry_holds_the_entries [foobar; anon] s Hs). split; [left | reflexivity].
  - apply (registry_holds_the_entries [foobar; anon] s Hs).
    split; [right; left | reflexivity].
Defined.

(** X7. [List] appends to the names it is given the names of the
    registered benchmarks: for a server that [newServer] returned these
    are the names of the sequence, each once, in some order. *)
Theorem List_returns_registered_names bs s (given : list string) :
  Rpc.newServer bs = inr s ->
  exists listed,
    Rpc.Server_List s given = given ++ listed /\
    listed ≡ₚ names bs /\
    NoDup listed.
Proof.
  intros Hs. unfold Rpc.Server_List. eexists. split; [reflexivity|].
  assert ((fun kv : string * testing.InternalBenchmark => testing.Name kv.2)
            <$> map_to_list (Rpc.m s) ≡ₚ names bs) as Hp.
  { rewrite (newServer_entries _ _ Hs). unfold names.
    rewrite <- list_fmap_compose. reflexivity. }
  split; [exact Hp|]. rewrite Hp.
  unfold Rpc.newServer in Hs.
  destruct (Rpc.register bs ∅) as [msg|m'] eqn:Hr; [discriminate|].
  exact (proj1 (register_finishes _ _ _ Hr)).
Qed.

(** Three benchmarks listed after a name that was already in the reply. *)
Lemma List_returns_registered_names_witness :
  let foo := Sample.bench "Foo" Sample.quiet in
  let bar := Sample.bench "Bar" Sample.leaky in
  let baz := Sample.bench "Baz" Sample.reporting in
  let s := {| Rpc.m := <["Baz" := baz]> (<["Bar" := bar]> (<["Foo" := foo]> ∅));
              Rpc.opt := {| Rpc.Benchmem := false |} |} in
  exists listed,
    Rpc.Server_List s ["Old"] = "Old" :: listed /\
    listed ≡ₚ ["Foo"; "Bar"; "Baz"] /\ NoDup listed.
Proof.
  intros foo bar baz s.
  exact (List_returns_registered_names [foo; bar; baz] s ["Old"] eq_refl).
Defined.

(** ** Running over RPC *)

Lemma rpcRun_calls b args w :
  calls (snd (rpcRun b args w))
  = calls w ++ [{| callName := testing.Name b; callN := Rpc.N args;
                   callProcs := if Rpc.Procs args <=? 0
                                then runtime.gomaxprocs (rt w)
                                else Rpc.Procs args |}].
Proof.
  unfold rpcRun. rewrite Rpc_runBenchmark_calls. simpl.
  destruct (Rpc.Procs args <=? 0); reflexivity.
Qed.

(** X8. On a server that [newServer] returned, whatever options were set
    since, [Run] with the exact name of an entry and a degree of at most
    [MaxGomaxprocs] invokes the body of that entry once, with the
    requested [N], and leaves its result in the reply; [Run] with any
    other name returns the not-found error and touches neither the reply
    nor the process. *)
Theorem Run_reaches_exactly_the_entries bs s o args reply w :
  Rpc.newServer bs = inr s ->
  let s' := Rpc.Server_Set s o in
  (forall b, b ∈ bs -> testing.Name b = Rpc.Name args ->
     Rpc.Procs args <= runtime.MaxGomaxprocs ->
     (Rpc.Server_Run s' args reply w).1.1 = fst (rpcRun b args w) /\
     (Rpc.Server_Run s' args reply w).2 = snd (rpcRun b args w) /\
     calls (Rpc.Server_Run s' args reply w).2
     = calls w ++ [{| callName := Rpc.Name args; callN := Rpc.N args;
                      callProcs := if Rpc.Procs args <=? 0
                                   then runtime.gomaxprocs (rt w)
                                   else Rpc.Procs args |}]) /\
  (Rpc.Name args ∉ names bs ->
     Rpc.Server_Run s' args reply w
     = (reply, Some (Rpc.Name args +:+ " not found"), w)).
Proof.
  intros Hs s'. split.
  - intros b Hb Hname _.
    assert (Rpc.m s' !! Rpc.Name args = Some b) as Hl.
    { apply (registry_holds_the_entries bs s Hs). split; assumption. }
    rewrite (Server_Run_found _ _ _ _ _ Hl). simpl.
    repeat split. rewrite rpcRun_calls, Hname. reflexivity.
  - intros Hnot. unfold Rpc.Server_Run.
    destruct (Rpc.m s' !! Rpc.Name args) as [b|] eqn:Hl; [|reflexivity].
    exfalso. apply Hnot.
    apply (registry_holds_the_entries bs s Hs) in Hl as [Hb Hname].
    unfold names. apply list_elem_of_fmap. exists b. split; [symmetry|]; assumption.
Qed.

(** A benchmark with a dash in its name, run over RPC with options set;
    and a name that is only a prefix of it. *)
Lemma Run_reaches_exactly_the_entries_witness :
  let foobar := Sample.bench "Foo-bar" Sample.quiet in
  let s := {| Rpc.m := <["Foo-bar" := foobar]> ∅;
              Rpc.opt := {| Rpc.Benchmem := false |} |} in
  let s' := Rpc.Server_Set s {| Rpc.Benchmem := true |} in
  calls (Rpc.Server_Run s' {| Rpc.Name := "Foo-bar"; Rpc.Procs := 2; Rpc.N := 5 |}
           Rpc.zeroResult Sample.w0).2
  = [{| callName := "Foo-bar"; callN := 5; callProcs := 2 |}] /\
  Rpc.Server_Run s' {| Rpc.Name := "Foo"; Rpc.Procs := 2; Rpc.N := 5 |}
    Rpc.zeroResult Sample.w0
  = (Rpc.zeroResult, Some "Foo not found", Sample.w0).
Proof.
  intros foobar s s'. split.
  - apply (proj1 (Run_reaches_exactly_the_entries [foobar] s {| Rpc.Benchmem := true |}
                    {| Rpc.Name := "Foo-bar"; Rpc.Procs := 2; Rpc.N := 5 |}
                    Rpc.zeroResult Sample.w0 eq_refl) foobar);
      [left | reflexivity | vm_compute; discriminate].
  - apply (proj2 (Run_reaches_exactly_the_entries [foobar] s {| Rpc.Benchmem := true |}
                    {| Rpc.Name := "Foo"; Rpc.Procs := 2; Rpc.N := 5 |}
                    Rpc.zeroResult Sample.w0 eq_refl)).
    intros Hin. apply list_elem_of_singleton in Hin. discriminate.
Defined.

(** ** What a run measures *)

(** X9. Started on the same benchmark with the same degree and count in
    the same process, the run of the line server and the run of the RPC
    server yield the same measurements and flags, invoke the same body
    and leave the same runtime state. *)
Theorem both_servers_measure_alike bench procs iters name w :
  let line := lineRun bench procs iters w in
  let rpc := rpcRun bench {| Rpc.Name := name; Rpc.Procs := procs; Rpc.N := iters |} w in
  Line.BenchmarkResult line.1 = Rpc.BenchmarkResult rpc.1 /\
  Line.Failed line.1 = Rpc.failed rpc.1 /\
  Line.ShowAllocResult line.1 = Rpc.ReportAllocs rpc.1 /\
  rt line.2 = rt rpc.2 /\
  calls line.2 = calls rpc.2.
Proof.
  unfold lineRun, rpcRun, Line.runBenchmark, Rpc.runBenchmark, runBody. simpl.
  destruct (testing.F bench _ _) as [[tb3 st2] e]. simpl. repeat split.
Qed.

Lemma startedB_fields n st :
  startedB n st
  = {| testing.b_N := n; testing.timerOn := true; testing.start := runtime.now st;
       testing.duration := 0; testing.bytes := 0; testing.netAllocs := 0;
       testing.netBytes := 0; testing.startAllocs := runtime.Mallocs st;
       testing.startBytes := runtime.TotalAlloc st; testing.failed := false;
       testing.showAllocResult := false; testing.parallelism := 1 |}.
Proof. reflexivity. Qed.

(** X10. The body is handed a [B] with the requested [N], parallelism 1
    and a reset, running timer, after one forced collection.  If the body
    leaves the timer alone and returns, the result reports the time and
    the allocations between its start and its return; if it leaves
    through [Goexit] ([FailNow], [SkipNow]) the timer is never stopped and
    the result reports zero time and zero allocations.  The byte count
    and both flags are those the body left. *)
Theorem run_measures_the_body b n w tb' st' e :
  let st := runtime.GC (rt w) in
  testing.F b (startedB n st) st = (tb', st', e) ->
  timerUntouched (startedB n st) tb' ->
  let r := (Line.runBenchmark b n w).1 in
  Line.BenchmarkResult r
  = match e with
    | testing.Returned =>
        {| testing.N := n;
           testing.T := wrap_i64 (runtime.now st' - runtime.now (rt w));
           testing.Bytes := testing.bytes tb';
           testing.MemAllocs := wrap_u64 (runtime.Mallocs st' - runtime.Mallocs (rt w));
           testing.MemBytes :=
             wrap_u64 (runtime.TotalAlloc st' - runtime.TotalAlloc (rt w)) |}
    | testing.Goexit =>
        {| testing.N := n; testing.T := 0; testing.Bytes := testing.bytes tb';
           testing.MemAllocs := 0; testing.MemBytes := 0 |}
    end /\
  Line.Failed r = testing.failed tb' /\
  Line.ShowAllocResult r = testing.showAllocResult tb' /\
  rt (Line.runBenchmark b n w).2 = st' /\
  runtime.NumForcedGC st = runtime.NumForcedGC (rt w) + 1.
Proof.
  intros st HF Ht r. subst r.
  unfold Line.runBenchmark, runBody. fold st.
  change (testing.StartTimer
            (testing.ResetTimer (testing.SetParallelism 1 (testing.newB n)) st) st)
    with (startedB n st).
  rewrite HF. rewrite startedB_fields in Ht.
  destruct Ht as (Hon & Hstart & Hdur & Hna & Hnb & Hsa & Hsb). simpl in *.
  destruct e; simpl.
  - unfold testing.StopTimer. rewrite Hon. simpl.
    rewrite Hstart, Hdur, Hna, Hnb, Hsa, Hsb. repeat split.
  - rewrite Hdur, Hna, Hnb. repeat split.
Qed.

(** [quiet] runs for 50ns and allocates twice; [failing] does the same
    and leaves through [FailNow]. *)
Lemma run_measures_the_body_witness :
  Line.BenchmarkResult (Line.runBenchmark (Sample.bench "Foo" Sample.quiet) 10 Sample.w0).1
  = {| testing.N := 10; testing.T := wrap_i64 50; testing.Bytes := 0;
       testing.MemAllocs := wrap_u64 2; testing.MemBytes := wrap_u64 64 |} /\
  Line.BenchmarkResult (Line.runBenchmark (Sample.bench "Foo" Sample.failing) 10 Sample.w0).1
  = {| testing.N := 10; testing.T := 0; testing.Bytes := 0;
       testing.MemAllocs := 0; testing.MemBytes := 0 |}.
Proof.
  split.
  - apply (run_measures_the_body (Sample.bench "Foo" Sample.quiet) 10 Sample.w0
             _ _ testing.Returned eq_refl).
    repeat split.
  - apply (run_measures_the_body (Sample.bench "Foo" Sample.failing) 10 Sample.w0
             _ _ testing.Goexit eq_refl).
    repeat split.
Defined.

(** ** The degree after a run *)

Lemma runBody_rt_degree b tb w :
  keepsDegree (testing.F b) ->
  runtime.gomaxprocs (rt (runBody b tb w).2) = runtime.gomaxprocs (rt w).
Proof.
  intros Hk. unfold runBody.
  pose proof (Hk (testing.StartTimer (testing.ResetTimer tb (runtime.GC (rt w)))
                    (runtime.GC (rt w))) (runtime.GC (rt w))) as H.
  destruct (testing.F b _ _) as [[tb3 st2] e]. exact H.
Qed.

Lemma lineRun_degree bench procs iters w :
  keepsDegree (testing.F bench) ->
  getGOMAXPROCS (lineRun bench procs iters w).2
  = if procs <=? 0 then runtime.gomaxprocs (rt w) else procs.
Proof.
  intros Hk. unfold lineRun, Line.runBenchmark, getGOMAXPROCS.
  pose proof (runBody_rt_degree bench (testing.SetParallelism 1 (testing.newB iters))
    (setGOMAXPROCS procs
       (write Stdout [Lit (Line.benchmarkName (testing.Name bench) procs +:+ TAB)] w))
    Hk) as H.
  destruct (runBody bench _ _) as [tb w1]. simpl in *. rewrite H.
  destruct (procs <=? 0); reflexivity.
Qed.

(** X11. The server sets the degree before a run and never puts the
    previous one back.  After an accepted [run] with a degree of at most
    [MaxGomaxprocs] whose body leaves the degree as it found it, the
    degree is the requested one when that is at least 1 and the earlier
    one otherwise.  If moreover the run did
    not fail, the error stream gets nothing for a requested degree of at
    least 1, and the leak warning for every requested degree below 1,
    since the degree of the process can never equal it. *)
Theorem degree_after_run s args bench procs iters w :
  Line.checkRun s args = inl (bench, procs, iters) ->
  procs <= runtime.MaxGomaxprocs ->
  keepsDegree (testing.F bench) ->
  0 < runtime.gomaxprocs (rt w) ->
  let w' := Line.cmdRun s args w in
  getGOMAXPROCS w' = (if procs <=? 0 then runtime.gomaxprocs (rt w) else procs) /\
  (Line.Failed (lineRun bench procs iters w).1 = false ->
   List.filter onStderr (emitted w w')
   = if procs <=? 0
     then [leakWarning (Line.benchmarkName (testing.Name bench) procs)
             (runtime.gomaxprocs (rt w))]
     else []).
Proof.
  intros Hc _ Hk Hpos w'. subst w'.
  rewrite (cmdRun_accepted _ _ _ _ _ _ Hc). split.
  - unfold getGOMAXPROCS at 1. simpl. rewrite doRun_rt.
    exact (lineRun_degree bench procs iters w Hk).
  - intros Hf.
    rewrite (emitted_app w _ _ (doRun_out s bench procs iters w)).
    cbv zeta. rewrite Hf, filter_nameLine, List.filter_app, resultLines_stderr.
    rewrite (lineRun_degree bench procs iters w Hk). simpl app.
    destruct (Z.leb_spec procs 0) as [Hle|Hgt].
    + destruct (Z.eqb_spec (runtime.gomaxprocs (rt w)) procs); [lia | reflexivity].
    + rewrite Z.eqb_refl. reflexivity.
Qed.

(** [run Foo-0 10] and [run Foo-2 10] with a well-behaved body. *)
Lemma degree_after_run_witness :
  let s := Line.newServer [Sample.bench "Foo" Sample.quiet] in
  (getGOMAXPROCS (Line.cmdRun s ["Foo-0"; "10"] Sample.w0) = 4 /\
   List.filter onStderr (emitted Sample.w0 (Line.cmdRun s ["Foo-0"; "10"] Sample.w0))
   = [leakWarning "Foo-0" 4]) /\
  (getGOMAXPROCS (Line.cmdRun s ["Foo-2"; "10"] Sample.w0) = 2 /\
   List.filter onStderr (emitted Sample.w0 (Line.cmdRun s ["Foo-2"; "10"] Sample.w0))
   = []).
Proof.
  intros s.
  assert (keepsDegree Sample.quiet) as Hk by (intros tb st; reflexivity).
  split.
  - destruct (degree_after_run s ["Foo-0"; "10"] (Sample.bench "Foo" Sample.quiet)
                0 10 Sample.w0 eq_refl ltac:(vm_compute; discriminate) Hk eq_refl)
      as [H1 H2].
    split; [exact H1 | exact (H2 eq_refl)].
  - destruct (degree_after_run s ["Foo-2"; "10"] (Sample.bench "Foo" Sample.quiet)
                2 10 Sample.w0 eq_refl ltac:(vm_compute; discriminate) Hk eq_refl)
      as [H1 H2].
    split; [exact H1 | exact (H2 eq_refl)].
Defined.

(** ** Which [run] commands are accepted *)

Lemma findBenchmark_split bs name d :
  (Line.findBenchmark bs name d = d /\ forall x, x ∈ bs -> testing.Name x <> name) \/
  (exists pre post,
      bs = pre ++ Line.findBenchmark bs name d :: post /\
      testing.Name (Line.findBenchmark bs name d) = name /\
      forall x, x ∈ pre -> testing.Name x <> name).
Proof.
  induction bs as [|x bs IH]; simpl.
  - left. split; [reflexivity|]. intros x Hx. apply elem_of_nil in Hx. contradiction.
  - destruct (String.eqb_spec (testing.Name x) name) as [E|Hne].
    + right. exists [], bs. split; [reflexivity|]. split; [exact E|].
      intros y Hy. apply elem_of_nil in Hy. contradiction.
    + destruct IH as [[Hd Hall]|(pre & post & Hbs & Hname & Hpre)].
      * left. split; [exact Hd|]. intros y Hy.
        apply elem_of_cons in Hy as [->|Hy]; [exact Hne | apply Hall; exact Hy].
      * right. exists (x :: pre), post. split; [simpl; f_equal; exact Hbs|].
        split; [exact Hname|]. intros y Hy.
        apply elem_of_cons in Hy as [->|Hy]; [exact Hne | apply Hpre; exact Hy].
Qed.

(** X12. [cmdRun] goes on to run a benchmark exactly when the command
    has two arguments or more, the first splits into a name and a degree,
    the name is not empty, the benchmark is the first registered one of
    that name, and the second argument is a positive integer for
    [strconv.Atoi].  In particular a benchmark registered under the empty
    name, or behind another of the same name, is never run. *)
Theorem run_accepted_iff s args bench procs iters :
  Line.checkRun s args = inl (bench, procs, iters) <->
  exists a0 a1 rest pre post,
    args = a0 :: a1 :: rest /\
    Line.splitName a0 = inl (testing.Name bench, procs) /\
    testing.Name bench <> "" /\
    Line.benchmarks s = pre ++ bench :: post /\
    (forall x, x ∈ pre -> testing.Name x <> testing.Name bench) /\
    strconv.Atoi a1 = (iters, None) /\
    0 < iters.
Proof.
  split.
  - unfold Line.checkRun. destruct args as [|a0 [|a1 rest]]; [discriminate ..|].
    destruct (Line.splitName a0) as [[name p]|err] eqn:Hs; [|discriminate].
    destruct (String.eqb_spec
                (testing.Name (Line.findBenchmark (Line.benchmarks s) name
                                 Line.zeroBenchmark)) "") as [_|Hne]; [discriminate|].
    destruct (strconv.Atoi a1) as [n [e|]] eqn:Ha; [discriminate|].
    simpl. destruct (Z.leb_spec n 0) as [_|Hpos]; [discriminate|].
    intros [= <- <- <-].
    destruct (findBenchmark_split (Line.benchmarks s) name Line.zeroBenchmark)
      as [[Hd _]|(pre & post & Hbs & Hname & Hpre)].
    + exfalso. apply Hne. rewrite Hd. reflexivity.
    + exists a0, a1, rest, pre, post. rewrite Hname.
      repeat split; try assumption. rewrite <- Hname. exact Hne.
  - intros (a0 & a1 & rest & pre & post & -> & Hs & Hne & Hbs & Hpre & Ha & Hpos).
    unfold Line.checkRun. rewrite Hs, Hbs, (findBenchmark_first _ _ _ _ Hpre).
    destruct (String.eqb_spec (testing.Name bench) "") as [E|_]; [contradiction|].
    rewrite Ha. simpl. destruct (Z.leb_spec iters 0); [lia | reflexivity].
Qed.

(** The second of two benchmarks named [Foo] is not the one that runs,
    and a benchmark with the empty name is not found. *)
Lemma run_accepted_iff_witness :
  let foo := Sample.bench "Foo" Sample.quiet in
  let foo' := Sample.bench "Foo" Sample.leaky in
  let anon := Sample.bench "" Sample.leaky in
  let s := Line.newServer [anon; foo; foo'] in
  Line.checkRun s ["Foo-3"; "10"; "extra"] = inl (foo, 3, 10) /\
  (forall procs iters, Line.checkRun s ["-3"; "10"] <> inl (anon, procs, iters)).
Proof.
  intros foo foo' anon s. split.
  - apply (proj2 (run_accepted_iff s ["Foo-3"; "10"; "extra"] foo 3 10)).
    exists "Foo-3", "10", ["extra"], [anon], [foo'].
    repeat split; try reflexivity; try discriminate.
    intros x Hx. apply list_elem_of_singleton in Hx. subst x. discriminate.
  - intros procs iters H.
    apply (proj1 (run_accepted_iff s ["-3"; "10"] anon procs iters)) in H
      as (a0 & a1 & rest & pre & post & _ & _ & Hne & _). apply Hne. reflexivity.
Defined.

(** ** Display names as arguments *)

Section Decimal.

Implicit Types (d : Decimal.uint) (n : Z).

Lemma decimalValue_lower d : forall n, 0 <= n -> n <= decimalValue d n.
Proof.
  induction d as [|d IH|d IH|d IH|d IH|d IH|d IH|d IH|d IH|d IH|d IH];
    intros n Hn; cbn [decimalValue]; [lia|..];
    (etransitivity; [|apply IH]; lia).
Qed.

Lemma parseDigits_decimal d : forall n,
  0 <= n ->
  decimalValue d n <= strconv.maxUint64 ->
  strconv.parseDigits (NilEmpty.string_of_uint d) n = (decimalValue d n, None).
Proof.
  assert (forall n k rest,
            0 <= n -> 0 <= k ->
            decimalValue rest (n * 10 + k) <= strconv.maxUint64 ->
            (strconv.maxUint64 / 10 + 1 <=? n) = false /\
            (strconv.maxUint64 <? n * 10 + k) = false) as Hroom.
  { intros n k rest Hn Hk Hmax.
    pose proof (decimalValue_lower rest (n * 10 + k) ltac:(lia)) as Hlow.
    split; [apply Z.leb_gt | apply Z.ltb_ge; lia].
    apply Z.lt_succ_r, Z.div_le_lower_bound; lia. }
  induction d as [|d IH|d IH|d IH|d IH|d IH|d IH|d IH|d IH|d IH|d IH];
    intros n Hn Hmax; cbn [NilEmpty.string_of_uint decimalValue strconv.parseDigits] in *;
    [reflexivity|..];
    match goal with
    | |- context [strconv.digit ?c] =>
        let v := eval vm_compute in (strconv.digit c) in
        change (strconv.digit c) with v; cbv iota beta
    end;
    match goal with
    | H : decimalValue d (n * 10 + ?k) <= _ |- _ =>
        destruct (Hroom n k d Hn ltac:(lia) H) as [-> ->]; apply IH; [lia | exact H]
    end.
Qed.

Lemma of_uint_acc_value d : forall acc,
  Z.pos (Pos.of_uint_acc d acc) = decimalValue d (Z.pos acc).
Proof.
  induction d as [|d IH|d IH|d IH|d IH|d IH|d IH|d IH|d IH|d IH|d IH];
    intros acc; cbn [Pos.of_uint_acc decimalValue]; [reflexivity|..];
    rewrite IH; f_equal; lia.
Qed.

Lemma of_uint_value d : Z.of_N (Pos.of_uint d) = decimalValue d 0.
Proof.
  induction d as [|d IH|d IH|d IH|d IH|d IH|d IH|d IH|d IH|d IH|d IH];
    cbn [Pos.of_uint decimalValue]; [reflexivity | exact IH | ..];
    cbn [Z.of_N]; rewrite of_uint_acc_value; reflexivity.
Qed.

Lemma to_uint_value p : decimalValue (Pos.to_uint p) 0 = Z.pos p.
Proof. rewrite <- of_uint_value, DecimalPos.Unsigned.of_to. reflexivity. Qed.

Lemma to_uint_not_Nil p : Pos.to_uint p <> Decimal.Nil.
Proof.
  intros E. pose proof (to_uint_value p) as H. rewrite E in H. discriminate.
Qed.

Lemma string_of_to_uint p :
  NilZero.string_of_uint (Pos.to_uint p) = NilEmpty.string_of_uint (Pos.to_uint p).
Proof.
  pose proof (to_uint_not_Nil p). unfold NilZero.string_of_uint.
  destruct (Pos.to_uint p); [contradiction | reflexivity ..].
Qed.

(** The digits of a positive number read back as that number. *)
Lemma ParseUint_digits p :
  Z.pos p <= strconv.maxUint64 ->
  strconv.ParseUint (NilEmpty.string_of_uint (Pos.to_uint p)) = (Z.pos p, None).
Proof.
  intros Hmax. unfold strconv.ParseUint.
  pose proof (parseDigits_decimal (Pos.to_uint p) 0 ltac:(lia)) as H.
  rewrite to_uint_value in H. specialize (H Hmax).
  pose proof (to_uint_not_Nil p).
  destruct (Pos.to_uint p); [contradiction | exact H ..].
Qed.

(** The first character of the digits of a number is no sign. *)
Lemma digits_head d :
  d <> Decimal.Nil ->
  exists c rest, NilEmpty.string_of_uint d = String c rest /\
                 Ascii.eqb c "+" = false /\ Ascii.eqb c "-" = false.
Proof.
  intros H. destruct d; [contradiction|..]; eexists _, _; repeat split.
Qed.

End Decimal.

Lemma Atoi_Itoa p :
  - 2 ^ 63 <= p < 2 ^ 63 -> strconv.Atoi (strconv.Itoa p) = (p, None).
Proof.
  intros Hp. unfold strconv.Atoi, strconv.Itoa.
  destruct p as [|p|p].
  - reflexivity.
  - cbn [Z.to_int NilZero.string_of_int]. rewrite string_of_to_uint.
    pose proof (ParseUint_digits p ltac:(unfold strconv.maxUint64; lia)) as HU.
    destruct (digits_head _ (to_uint_not_Nil p)) as (c & rest & Hs & Hplus & Hminus).
    rewrite Hs in *. unfold strconv.ParseInt. rewrite Hplus, Hminus. cbn [orb].
    rewrite HU. cbn [negb andb].
    destruct (Z.leb_spec (2 ^ 63) (Z.pos p)); [lia | reflexivity].
  - cbn [Z.to_int NilZero.string_of_int]. rewrite string_of_to_uint.
    pose proof (ParseUint_digits p ltac:(unfold strconv.maxUint64; lia)) as HU.
    unfold strconv.ParseInt.
    change (Ascii.eqb "-" "-") with true. change (Ascii.eqb "-" "+") with false.
    cbn [orb]. rewrite HU. cbn [negb andb].
    destruct (Z.ltb_spec (2 ^ 63) (Z.pos p)); [lia | reflexivity].
Qed.

Lemma parseDigits_nonneg s : forall n, 0 <= n -> 0 <= (strconv.parseDigits s n).1.
Proof.
  induction s as [|c s IH]; intros n Hn; cbn [strconv.parseDigits]; [exact Hn|].
  unfold strconv.digit.
  destruct ((48 <=? Z.of_nat (nat_of_ascii c)) && (Z.of_nat (nat_of_ascii c) <=? 57))
    eqn:Hd; [|simpl; lia].
  apply andb_true_iff in Hd as [H1 _]. apply Z.leb_le in H1.
  destruct (strconv.maxUint64 / 10 + 1 <=? n); [unfold strconv.maxUint64; simpl; lia|].
  destruct (strconv.maxUint64 <? _); [unfold strconv.maxUint64; simpl; lia|].
  apply IH. lia.
Qed.

Lemma Atoi_range s p : strconv.Atoi s = (p, None) -> - 2 ^ 63 <= p < 2 ^ 63.
Proof.
  unfold strconv.Atoi, strconv.ParseInt. destruct s as [|c rest]; [discriminate|].
  set (body := if Ascii.eqb c "+" || Ascii.eqb c "-" then rest else String c rest).
  assert (0 <= (strconv.ParseUint body).1) as Hnn.
  { unfold strconv.ParseUint. destruct body; [simpl; lia|].
    apply parseDigits_nonneg. lia. }
  destruct (strconv.ParseUint body) as [un [[|]|]]; [discriminate|..]; simpl in Hnn;
    destruct (Ascii.eqb c "-"); cbn [negb andb];
    repeat match goal with
           | |- context [Z.leb ?a ?b] => destruct (Z.leb_spec a b)
           | |- context [Z.ltb ?a ?b] => destruct (Z.ltb_spec a b)
           end; try discriminate; intros [= <-]; lia.
Qed.

Lemma splitName_range arg name procs :
  Line.splitName arg = inl (name, procs) -> - 2 ^ 63 <= procs < 2 ^ 63.
Proof.
  unfold Line.splitName. destruct (negb _).
  - destruct (strconv.Atoi _) as [p [e|]] eqn:Ha; [discriminate|].
    intros [= _ <-]. exact (Atoi_range _ _ Ha).
  - intros [= _ <-]. lia.
Qed.

Lemma splitName_benchmarkName name p :
  strings.IndexByte name "-" = -1 ->
  - 2 ^ 63 <= p < 2 ^ 63 ->
  Line.splitName (Line.benchmarkName name p) = inl (name, p).
Proof.
  intros Hname Hp. unfold Line.benchmarkName.
  destruct (Z.eqb_spec p 1) as [->|_]; simpl negb; cbv iota.
  - apply splitName_plain. exact Hname.
  - rewrite (splitName_dash _ _ Hname), (Atoi_Itoa _ Hp). reflexivity.
Qed.

Lemma checkRun_splitName s a0 rest bench procs iters :
  Line.checkRun s (a0 :: rest) = inl (bench, procs, iters) ->
  Line.splitName a0 = inl (testing.Name bench, procs).
Proof.
  unfold Line.checkRun. destruct rest as [|a1 rest]; [discriminate|].
  destruct (Line.splitName a0) as [[name p]|err]; [|discriminate].
  destruct (findBenchmark_cases (Line.benchmarks s) name Line.zeroBenchmark)
    as [E|[_ E]].
  - rewrite E. simpl. discriminate.
  - destruct (String.eqb _ ""); [discriminate|].
    destruct (strconv.Atoi a1) as [n err].
    destruct (bool_decide (is_Some err) || (n <=? 0)); [discriminate|].
    intros [= <- <- _]. rewrite E. reflexivity.
Qed.

(** X13. A display name parses back into its parts: for a name without
    '-' and a degree that fits an [int], splitting the text that
    [benchmarkName] builds yields the same name and the same degree, also
    for degree 1, where there is no suffix, and for zero and negative
    degrees. *)
Theorem display_name_parses_back name p :
  strings.IndexByte name "-" = -1 ->
  - 2 ^ 63 <= p < 2 ^ 63 ->
  Line.splitName (Line.benchmarkName name p) = inl (name, p).
Proof. exact (splitName_benchmarkName name p). Qed.

(** The names printed for degrees 4, 1 and -2. *)
Lemma display_name_parses_back_witness :
  Line.splitName (Line.benchmarkName "BenchmarkFoo" 4) = inl ("BenchmarkFoo", 4) /\
  Line.splitName (Line.benchmarkName "BenchmarkFoo" 1) = inl ("BenchmarkFoo", 1) /\
  Line.splitName (Line.benchmarkName "BenchmarkFoo" (-2)) = inl ("BenchmarkFoo", -2).
Proof.
  split; [|split]; apply display_name_parses_back; first [reflexivity | lia].
Defined.

(** X14. The display name that an accepted [run] command prints can
    be given back as the name argument: with the same remaining arguments
    the command is accepted again, for the same benchmark, degree and
    iteration count. *)
Theorem display_name_runs_again s a0 rest bench procs iters :
  Line.checkRun s (a0 :: rest) = inl (bench, procs, iters) ->
  Line.checkRun s (Line.benchmarkName (testing.Name bench) procs :: rest)
  = inl (bench, procs, iters).
Proof.
  intros Hc. pose proof (checkRun_splitName _ _ _ _ _ _ Hc) as Hs.
  rewrite <- Hc. unfold Line.checkRun. destruct rest as [|a1 rest]; [reflexivity|].
  rewrite Hs, (splitName_benchmarkName _ _ (checkRun_no_dash _ _ _ _ _ Hc)
                 (splitName_range _ _ _ Hs)).
  reflexivity.
Qed.

(** [run Foo-03 10] prints [Foo-3], and [run Foo-3 10] is the same run. *)
Lemma display_name_runs_again_witness :
  let foo := Sample.bench "Foo" Sample.quiet in
  Line.checkRun (Line.newServer [foo]) ["Foo-3"; "10"] = inl (foo, 3, 10).
Proof.
  intros foo.
  exact (display_name_runs_again (Line.newServer [foo]) "Foo-03" ["10"] foo 3 10 eq_refl).
Defined.

(** ** The output stream of a run *)

Lemma resultLines_stdout benchmem r :
  List.filter onStdout (resultLines benchmem r) = resultLines benchmem r.
Proof.
  unfold resultLines. destruct (benchmem || Line.ShowAllocResult r); reflexivity.
Qed.

(** X15. On the output stream an accepted [run] with a degree of at
    most [MaxGomaxprocs] writes the display name and a tab, and then,
    unless the run failed, the result, the memory statistics if they are
    due, and the end of the line.  After a failed
    run the line is left as the name and the tab, without an end of
    line; warnings and failure notices never go to the output stream. *)
Theorem run_output_stream s args bench procs iters w :
  Line.checkRun s args = inl (bench, procs, iters) ->
  procs <= runtime.MaxGomaxprocs ->
  let r := (lineRun bench procs iters w).1 in
  List.filter onStdout (emitted w (Line.cmdRun s args w))
  = nameLine (Line.benchmarkName (testing.Name bench) procs)
    :: (if Line.Failed r then [] else resultLines (Line.benchmem s) r).
Proof.
  intros Hc _ r. subst r.
  rewrite (cmdRun_accepted _ _ _ _ _ _ Hc).
  rewrite (emitted_app w _ _ (doRun_out s bench procs iters w)).
  cbv zeta.
  change (List.filter onStdout (nameLine ?n :: ?l))
    with (nameLine n :: List.filter onStdout l).
  f_equal. destruct (Line.Failed _); [reflexivity|].
  rewrite List.filter_app, resultLines_stdout.
  destruct (negb _); cbn [List.filter onStdout leakWarning]; apply app_nil_r.
Qed.

(** A failing and leaking body, and a leaking body that does not fail. *)
Lemma run_output_stream_witness :
  List.filter onStdout
    (emitted Sample.w0
       (Line.cmdRun (Line.newServer [Sample.bench "Foo" Sample.leakyFailing])
          ["Foo-2"; "10"] Sample.w0))
  = [nameLine "Foo-2"] /\
  List.filter onStdout
    (emitted Sample.w0
       (Line.cmdRun (Line.newServer [Sample.bench "Foo" Sample.leaky])
          ["Foo-2"; "10"] Sample.w0))
  = [nameLine "Foo-2";
     (Stdout, [ResultString {| testing.N := 10; testing.T := 50; testing.Bytes := 0;
                               testing.MemAllocs := 2; testing.MemBytes := 64 |}]);
     (Stdout, [Lit LF])].
Proof.
  split.
  - exact (run_output_stream (Line.newServer [Sample.bench "Foo" Sample.leakyFailing])
             ["Foo-2"; "10"] (Sample.bench "Foo" Sample.leakyFailing) 2 10 Sample.w0
             eq_refl ltac:(vm_compute; discriminate)).
  - exact (run_output_stream (Line.newServer [Sample.bench "Foo" Sample.leaky])
             ["Foo-2"; "10"] (Sample.bench "Foo" Sample.leaky) 2 10 Sample.w0
             eq_refl ltac:(vm_compute; discriminate)).
Defined.
